(** * VRF key commands of the chainlink node: core/cmd/local_client_vrf.go

    A shallow embedding of the command layer that drives the VRF key store:
    create, create-weak-and-export, import, export, delete, list and forget.
    The commands are state-passing programs over a [World]: the key store
    behind [store.VRFKeyStore], the files on disk, what was printed, what was
    logged, and the sequence of key-store methods invoked so far.

    The key store itself ([chainlink/core/store]), the key types
    ([chainlink/core/store/models/vrfkey]), [passwordFromFile] and the JSON
    decoder are not part of this file of the repository: the commands are
    stated over an arbitrary implementation of them, [Externals]. *)

From Stdlib Require Import String Ascii List.
From stdpp Require Import base strings gmap list pretty.

Set Default Proof Using "Type".
Local Open Scope string_scope.

(** Go's [[]byte]. *)
Abbreviation bytes := (list Byte.byte).

(** ** Errors *)

(** Go [error] values the commands build, test for or pass on. *)
Inductive error : Type :=
| Errorf (msg : string)                  (* fmt.Errorf(msg) *)
| Wrap (cause : error) (msg : string)    (* errors.Wrap / errors.Wrapf *)
| MatchingVRFKeyError                    (* store.MatchingVRFKeyError *)
| AttemptToDeleteNonExistentKeyFromDB    (* store.AttemptToDeleteNonExistentKeyFromDB *)
| ErrNotExist (path : string)            (* os: no file at path *)
| ErrPermission (path : string)          (* os: the file cannot be opened for writing *)
| Other (msg : string).                  (* any other failure of a collaborator *)

#[global] Instance error_eq_dec : EqDecision error.
Proof. solve_decision. Defined.

(** A Go result pair [(value, err)] read the way every caller here reads it:
    the error is looked at first. *)
Inductive Result (A : Type) : Type :=
| Ok (a : A)
| Err (e : error).
Arguments Ok {A} a.
Arguments Err {A} e.

(** utils.JustError: keep only the error of a result pair. *)
Definition JustError {A} (r : Result A) : option error :=
  match r with Ok _ => None | Err e => Some e end.

(** os.IsNotExist *)
Definition IsNotExist (e : option error) : bool :=
  match e with Some (ErrNotExist _) => true | _ => false end.

(** ** Command-line context *)

(** [clipkg.Context]: the flags given on the command line, with their
    values. *)
Abbreviation Context := (gmap string string).

Definition IsSet (c : Context) (name : string) : bool :=
  bool_decide (is_Some (c !! name)).

Definition String_ (c : Context) (name : string) : string :=
  default "" (c !! name).

(** ** The collaborators *)

Record Externals : Type := {
  (* chainlink/core/store/models/vrfkey *)
  PublicKey : Type;
  EncryptedSecretKey : Type;
  NewPublicKeyFromHex : string -> Result PublicKey;
  PublicKey_String : PublicKey -> string;
  (* json.Marshal of an EncryptedSecretKey *)
  Marshal : EncryptedSecretKey -> bytes;
  (* chainlink/core/store: the state behind VRFKeyStore and its methods *)
  VRFKeyStore : Type;
  VRFKeyStore_CreateKey : string -> VRFKeyStore -> Result PublicKey * VRFKeyStore;
  VRFKeyStore_CreateWeakInMemoryEncryptedKeyXXXTestingOnly :
    string -> VRFKeyStore -> Result EncryptedSecretKey * VRFKeyStore;
  VRFKeyStore_Import : bytes -> string -> VRFKeyStore -> option error * VRFKeyStore;
  VRFKeyStore_Export : PublicKey -> VRFKeyStore -> (list bytes * option error) * VRFKeyStore;
  VRFKeyStore_Delete : PublicKey -> VRFKeyStore -> option error * VRFKeyStore;
  VRFKeyStore_ListKeys : VRFKeyStore -> Result (list PublicKey) * VRFKeyStore;
  (* cmd.passwordFromFile *)
  passwordFromFile : string -> gmap string bytes -> Result string;
  (* json.Unmarshal(keyjson, &key) with key of type struct{ PublicKey string } *)
  Unmarshal_PublicKey : bytes -> Result string
}.

(** ** The world the commands run in *)

Section World.
Context (X : Externals).

(** A key-store method invocation, with its arguments. *)
Inductive Call : Type :=
| CallCreateKey (phrase : string)
| CallCreateWeak (phrase : string)
| CallImport (keyjson : bytes) (auth : string)
| CallExport (k : PublicKey X)
| CallDelete (k : PublicKey X)
| CallListKeys.

(** An argument of logger.Infow. *)
Inductive LogArg : Type :=
| LogString (s : string)
| LogPublicKey (k : PublicKey X)
| LogError (e : error)
| LogKeys (ks : list (PublicKey X)).

Record LogEntry : Type := Infow_entry {
  log_msg : string;
  log_args : list LogArg
}.

Record World : Type := mkWorld {
  keystore : VRFKeyStore X;          (* the VRF key store, with its db *)
  files : gmap string bytes;      (* the files on disk *)
  unopenable : gset string;       (* paths os.Stat answers for, but which the
                                     OS refuses to open for writing *)
  unstatable : gset string;       (* paths at which os.Stat itself fails with
                                     an error that is not not-exist (a
                                     component is a file, search permission
                                     is denied, the name is too long); the OS
                                     refuses to open these too *)
  stdout : list string;           (* what fmt.Printf / fmt.Println wrote *)
  logs : list LogEntry;           (* what logger.Infow wrote *)
  calls : list Call               (* key-store methods invoked, oldest first *)
}.

(** The paths the OS refuses to open for writing. *)
Definition unwritable (w : World) : gset string := unopenable w ∪ unstatable w.

Definition set_keystore (ks : VRFKeyStore X) (w : World) : World :=
  mkWorld ks (files w) (unopenable w) (unstatable w) (stdout w) (logs w) (calls w).
Definition set_files (fs : gmap string bytes) (w : World) : World :=
  mkWorld (keystore w) fs (unopenable w) (unstatable w) (stdout w) (logs w) (calls w).
Definition add_stdout (s : string) (w : World) : World :=
  mkWorld (keystore w) (files w) (unopenable w) (unstatable w) (stdout w ++ [s])
    (logs w) (calls w).
Definition add_log (e : LogEntry) (w : World) : World :=
  mkWorld (keystore w) (files w) (unopenable w) (unstatable w) (stdout w)
    (logs w ++ [e]) (calls w).
Definition add_call (c : Call) (w : World) : World :=
  mkWorld (keystore w) (files w) (unopenable w) (unstatable w) (stdout w) (logs w)
    (calls w ++ [c]).

(** ** Commands: state passing with Go's early return on error *)

Definition Cmd (A : Type) : Type := World -> Result A * World.

Definition ret {A} (a : A) : Cmd A := fun w => (Ok a, w).
Definition fail {A} (e : error) : Cmd A := fun w => (Err e, w).

(** [x, err := m; if err != nil { return err }; k x] *)
Definition bind {A B} (m : Cmd A) (k : A -> Cmd B) : Cmd B :=
  fun w => match m w with
           | (Ok a, w') => k a w'
           | (Err e, w') => (Err e, w')
           end.

(** [x, err := m; if err != nil { return errors.Wrapf(err, msg) }] *)
Definition wrapf {A} (msg : string) (m : Cmd A) : Cmd A :=
  fun w => match m w with
           | (Ok a, w') => (Ok a, w')
           | (Err e, w') => (Err (Wrap e msg), w')
           end.

(** [err := m], the error kept as a value for the caller to inspect. *)
Definition attempt (m : Cmd unit) : Cmd (option error) :=
  fun w => match m w with
           | (Ok _, w') => (Ok None, w')
           | (Err e, w') => (Ok (Some e), w')
           end.

Definition gets {A} (f : World -> A) : Cmd A := fun w => (Ok (f w), w).

End World.

Arguments ret {X A} a.
Arguments fail {X A} e.
Arguments bind {X A B} m k.
Arguments wrapf {X A} msg m.
Arguments attempt {X} m.
Arguments gets {X A} f.
Arguments keystore {X} w.
Arguments files {X} w.
Arguments unopenable {X} w.
Arguments unstatable {X} w.
Arguments unwritable {X} w.
Arguments stdout {X} w.
Arguments logs {X} w.
Arguments calls {X} w.
Arguments set_keystore {X} ks w.
Arguments set_files {X} fs w.
Arguments add_stdout {X} s w.
Arguments add_log {X} e w.
Arguments add_call {X} c w.
Arguments mkWorld {X}.
Arguments CallCreateKey {X}.
Arguments CallCreateWeak {X}.
Arguments CallImport {X}.
Arguments CallExport {X}.
Arguments CallDelete {X}.
Arguments CallListKeys {X}.
Arguments LogString {X}.
Arguments LogPublicKey {X}.
Arguments LogError {X}.
Arguments LogKeys {X}.
Arguments Infow_entry {X}.

Notation "x <- m ;; k" := (bind m (fun x => k))
  (at level 100, m at next level, right associativity).
Notation "m ;;; k" := (bind m (fun _ => k))
  (at level 100, right associativity).

(** ** Primitive effects *)

Definition nl : string := String "010"%char "".

Section Commands.
Context (X : Externals).

Abbreviation Cmd' := (Cmd X).

(** fmt.Printf with the formatted text [s]. *)
Definition Printf (s : string) : Cmd' unit :=
  fun w => (Ok tt, add_stdout s w).

(** fmt.Println *)
Definition Println (s : string) : Cmd' unit := Printf (s +:+ nl).

(** logger.Infow *)
Definition Infow (msg : string) (args : list (LogArg X)) : Cmd' unit :=
  fun w => (Ok tt, add_log (Infow_entry msg args) w).

(** os.Stat, as far as its error goes: it answers for a file that is there,
    reports not-exist for one that is not, and fails otherwise at the paths
    it cannot reach. *)
Definition Stat (path : string) (w : World X) : Result nat :=
  if decide (path ∈ unstatable w) then Err (Other ("stat " +:+ path))
  else match files w !! path with
       | Some content => Ok (length content)
       | None => Err (ErrNotExist path)
       end.

(** ioutil.ReadFile *)
Definition ReadFile (path : string) : Cmd' bytes :=
  fun w => match files w !! path with
           | Some content => (Ok content, w)
           | None => (Err (ErrNotExist path), w)
           end.

(** ioutil.WriteFile: creates or truncates the file at [path]. *)
Definition WriteFile (path : string) (data : bytes) : Cmd' unit :=
  fun w => if decide (path ∈ unwritable w)
           then (Err (ErrPermission path), w)
           else (Ok tt, set_files (<[path := data]> (files w)) w).

(** Modelled from the spec: [EncryptedSecretKey.WriteToDisk] of package
    vrfkey is not among the sources.  The disk export adapter serializes an
    encrypted key record to its portable file representation: the record is
    marshalled and the bytes are written to the file at [path]. *)
Definition WriteToDisk (key : EncryptedSecretKey X) (path : string) : Cmd' unit :=
  WriteFile path (Marshal X key).

(** The methods of [vRFKeyStore(cli)]: each runs the key store on its state
    and is recorded in [calls]. *)
Definition vrf_CreateKey (phrase : string) : Cmd' (PublicKey X) :=
  fun w => let '(r, ks) := VRFKeyStore_CreateKey X phrase (keystore w) in
           (r, add_call (CallCreateKey phrase) (set_keystore ks w)).

Definition vrf_CreateWeak (phrase : string) : Cmd' (EncryptedSecretKey X) :=
  fun w => let '(r, ks) :=
             VRFKeyStore_CreateWeakInMemoryEncryptedKeyXXXTestingOnly X phrase (keystore w) in
           (r, add_call (CallCreateWeak phrase) (set_keystore ks w)).

Definition vrf_Import (keyjson : bytes) (auth : string) : Cmd' unit :=
  fun w => let '(e, ks) := VRFKeyStore_Import X keyjson auth (keystore w) in
           (match e with None => Ok tt | Some err => Err err end,
            add_call (CallImport keyjson auth) (set_keystore ks w)).

(** Export hands back both the keys and the error. *)
Definition vrf_Export (k : PublicKey X) : Cmd' (list bytes * option error) :=
  fun w => let '(r, ks) := VRFKeyStore_Export X k (keystore w) in
           (Ok r, add_call (CallExport k) (set_keystore ks w)).

Definition vrf_Delete (k : PublicKey X) : Cmd' unit :=
  fun w => let '(e, ks) := VRFKeyStore_Delete X k (keystore w) in
           (match e with None => Ok tt | Some err => Err err end,
            add_call (CallDelete k) (set_keystore ks w)).

Definition vrf_ListKeys : Cmd' (list (PublicKey X)) :=
  fun w => let '(r, ks) := VRFKeyStore_ListKeys X (keystore w) in
           (r, add_call CallListKeys (set_keystore ks w)).

(** ** The commands of local_client_vrf.go *)

Definition noFileToOverwrite (path : string) (w : World X) : bool :=
  IsNotExist (JustError (Stat path w)).

(** getPassword retrieves the password from the file specified on the CL, or
    errors *)
Definition getPassword (c : Context) : Cmd' bytes :=
  if negb (IsSet c "password") then
    fail (Errorf "must specify password file")
  else
    rawPassword <-
      wrapf ("could not read password from file " +:+ String_ c "password")
        (fun w => (passwordFromFile X (String_ c "password") (files w), w)) ;;
    ret (list_byte_of_string rawPassword).

(** The text CreateVRFKey prints for the new key [key]. *)
Definition created_message (key : string) : string :=
  "Created keypair, with public key" +:+ nl +:+ nl +:+
  key +:+ nl +:+ nl +:+
  "The following command will export the encrypted secret key from the db to <save_path>:"
  +:+ nl +:+ nl +:+
  "chainlink local vrf export -f <save_path> -pk " +:+ key +:+ nl.

Definition CreateVRFKey (c : Context) : Cmd' unit :=
  password <- getPassword c ;;
  key <- wrapf "while creating new account"
           (vrf_CreateKey (string_of_list_byte password)) ;;
  Printf (created_message (PublicKey_String X key)) ;;;
  ret tt.

Definition overwrite_errmsg : string :=
  "must specify path to key file which does not already exist".

Definition CreateAndExportWeakVRFKey (c : Context) : Cmd' unit :=
  password <- getPassword c ;;
  key <- wrapf "while creating testing key"
           (vrf_CreateWeak (string_of_list_byte password)) ;;
  free <- gets (noFileToOverwrite (String_ c "file")) ;;
  if negb (IsSet c "file") || negb free then
    Println overwrite_errmsg ;;;
    fail (Errorf overwrite_errmsg)
  else
    Println "Don't use this key for anything sensitive!" ;;;
    WriteToDisk key (String_ c "file").

(** getPasswordAndKeyFile retrieves the password and key json from the files
    specified on the CL, or errors *)
Definition getPasswordAndKeyFile (c : Context) : Cmd' (bytes * bytes) :=
  password <- getPassword c ;;
  if negb (IsSet c "file") then
    fail (Errorf "must specify key file")
  else
    let keypath := String_ c "file" in
    keyjson <- wrapf ("failed to read file " +:+ keypath) (ReadFile keypath) ;;
    ret (password, keyjson).

(** The remedy ImportVRFKey prints when the db already has the key. *)
Definition remedy_message (publicKey : string) : string :=
  "If you want to import the new key anyway, delete the old key with the command"
  +:+ nl +:+ nl +:+
  "`chainlink local delete -pk " +:+ publicKey +:+ "`" +:+ nl +:+ nl +:+
  "(but maybe back it up first, with " +:+
  "chainlink local export -pk <public_key> -f <backup_path>`)".

Definition ImportVRFKey (c : Context) : Cmd' unit :=
  pk <- getPasswordAndKeyFile c ;;
  let '(password, keyjson) := pk in
  err <- attempt (vrf_Import keyjson (string_of_list_byte password)) ;;
  match err with
  | Some err =>
      if decide (err = MatchingVRFKeyError) then
        Println "The database already has an entry for that public key." ;;;
        match Unmarshal_PublicKey X keyjson with
        | Err e =>
            Println "could not extract public key from json input" ;;;
            fail (Wrap e ("while extracting public key from " +:+
                          string_of_list_byte keyjson))
        | Ok publicKey =>
            Println (remedy_message publicKey) ;;;
            fail (Wrap err "while attempting to import key from CL")
        end
      else fail err
  | None => ret tt
  end.

(** The path the copy at index [i] is saved to: the ones past the first get
    the extensions '.1', '.2', etc. *)
Definition ckeypath (keypath : string) (i : nat) : string :=
  if decide (0 < i) then keypath +:+ "." +:+ pretty i else keypath.

(** The loop of ExportVRFKey, [for i, keyjson := range enckeys], entered at
    index [i]. *)
Fixpoint writeKeys (keypath : string) (i : nat) (enckeys : list bytes) : Cmd' unit :=
  match enckeys with
  | [] => ret tt
  | keyjson :: rest =>
      wrapf ("could not save " +:+ string_of_list_byte keyjson +:+ " to " +:+
             ckeypath keypath i)
        (WriteFile (ckeypath keypath i) keyjson) ;;;
      writeKeys keypath (S i) rest
  end.

Definition getPublicKey (c : Context) : Cmd' (PublicKey X) :=
  if negb (IsSet c "publicKey") then
    fail (Errorf "must specify public key")
  else
    wrapf "failed to parse public key"
      (fun w => (NewPublicKeyFromHex X (String_ c "publicKey"), w)).

(** getKeys retrieves the keys for an ExportVRFKey request *)
Definition getKeys (c : Context) : Cmd' (list bytes) :=
  publicKey <- getPublicKey c ;;
  r <- vrf_Export publicKey ;;
  let '(enckeys, err) := r in
  match err with
  | Some err => (* Tolerate errors here, in case some keys were retrievable *)
      Infow "while retrieving keys with matching public key"
        [LogPublicKey publicKey; LogError err]
  | None => ret tt
  end ;;;
  ret enckeys.

(** ExportVRFKey saves encrypted copy of VRF key with given public key to
    requested file path. *)
Definition ExportVRFKey (c : Context) : Cmd' unit :=
  enckeys <- getKeys c ;;
  if negb (IsSet c "file") then
    fail (Errorf "must specify file to export to")
  else
    writeKeys (String_ c "file") 0 enckeys.

(** DeleteVRFKey deletes the VRF key with given public key from the db *)
Definition DeleteVRFKey (c : Context) : Cmd' unit :=
  publicKey <- getPublicKey c ;;
  err <- attempt (vrf_Delete publicKey) ;;
  match err with
  | Some err =>
      (if decide (err = AttemptToDeleteNonExistentKeyFromDB) then
         Println ("There is already no entry in the DB for " +:+
                  PublicKey_String X publicKey)
       else ret tt) ;;;
      fail err
  | None => ret tt
  end.

(** ListKeys Lists the keys in the db *)
Fixpoint printKeys (keys : list (PublicKey X)) : Cmd' unit :=
  match keys with
  | [] => ret tt
  | key :: rest => Println (PublicKey_String X key) ;;; printKeys rest
  end.

Definition ListKeys (c : Context) : Cmd' unit :=
  keys <- vrf_ListKeys ;;
  printKeys keys ;;;
  Infow "keys" [LogString "keys"; LogKeys keys] ;;;
  ret tt.

(** Forget removes the key from the in-memory key store, but leaves it in the
    db *)
Definition Forget (c : Context) : Cmd' unit :=
  ret tt.

End Commands.

Arguments Stat {X} path w.
Arguments noFileToOverwrite {X} path w.
Arguments Printf {X} s.
Arguments Println {X} s.
Arguments WriteFile {X} path data.
Arguments ReadFile {X} path.

(** ** Notions the properties are stated with *)

(** The paths of the first [n] copies. *)
Definition exportPaths (keypath : string) (n : nat) : list string :=
  ckeypath keypath <$> seq 0 n.

(** The files after copies [enckeys] were saved from index [i] on. *)
Fixpoint savedFiles (keypath : string) (i : nat) (enckeys : list bytes)
    (fs : gmap string bytes) : gmap string bytes :=
  match enckeys with
  | [] => fs
  | keyjson :: rest =>
      savedFiles keypath (S i) rest (<[ckeypath keypath i := keyjson]> fs)
  end.

(** [sub] occurs in [s]. *)
Definition contains (s sub : string) : Prop :=
  ∃ pre post, s = pre +:+ sub +:+ post.

(** Modelled from the spec: [CreateWeakInMemoryEncryptedKeyXXXTestingOnly] of
    store.VRFKeyStore is not among the sources.  The spec has it encrypt
    under the weak profile and not write to the persistent registry:
    whatever [registry] reads off the state of the key store is the same
    after the call as before it. *)
Definition weak_key_not_persisted (X : Externals) {R : Type}
    (registry : VRFKeyStore X -> R) : Prop :=
  ∀ phrase ks,
    registry (VRFKeyStore_CreateWeakInMemoryEncryptedKeyXXXTestingOnly X phrase ks).2
    = registry ks.

(** ** An in-memory key store *)

(** Modelled from the spec: package store, with VRFKeyStore and its methods,
    and package vrfkey are not among the sources.  This module follows
    sections 3 and 4 of the spec over an in-memory table of records, the way
    the spec's design notes let tests substitute one.  The cipher and the
    key file format are stand-ins, small enough to run: the spec leaves both
    to the encryption engine and the disk adapter. *)
Module MemStore.

Inductive Profile : Type := Strong | Weak.

#[global] Instance Profile_eq_dec : EqDecision Profile.
Proof. solve_decision. Defined.

(** Modelled from the spec: the EncryptedKeyRecord of section 3, reduced to
    the public key, the profile it was encrypted under, the integrity tag
    and the ciphertext. *)
Record EncryptedKeyRecord : Type := mkRecord {
  publicKey : string;
  profile : Profile;
  tag : string;
  ciphertext : string
}.

(** Modelled from the spec: the KeyStore of section 3.  The registry (the
    rows of the table, oldest first; one public key may have several), the
    state of the random source, and whether the storage takes writes. *)
Record State : Type := mkState {
  registry : list EncryptedKeyRecord;
  entropy : nat;
  storageUp : bool
}.

(** Modelled from the spec: the public point is derivable from the secret
    scalar and is rendered as a hex string. *)
Definition derivePublic (secret : string) : string := "0x" +:+ secret.

(** Modelled from the spec: the key derivation of section 4.1, here a
    digest of the password seeded by the profile. *)
Definition kdf (p : Profile) (password : string) : N :=
  foldl (λ h ch, ((h * 31 + N_of_ascii ch) `mod` 65521)%N)
        (match p with Strong => 7%N | Weak => 1%N end)
        (list_ascii_of_string password).

Definition shift (k : N) (s : string) : string :=
  string_of_list_ascii
    ((λ ch, ascii_of_N ((N_of_ascii ch + k) `mod` 256)%N) <$> list_ascii_of_string s).

Definition seal (p : Profile) (password secret : string) : string :=
  pretty (kdf p (password +:+ "/" +:+ secret)).

(** Modelled from the spec: Encrypt(secretScalar, password, profile) of
    section 4.1, giving the ciphertext and the integrity tag. *)
Definition Encrypt (secret password : string) (p : Profile) : string * string :=
  (shift (kdf p password `mod` 256)%N secret, seal p password secret).

(** Modelled from the spec: Decrypt(payload, password) of section 4.1; the
    tag makes it fail on a wrong password. *)
Definition Decrypt (r : EncryptedKeyRecord) (password : string) : Result string :=
  let secret := shift (256 - kdf (profile r) password `mod` 256)%N (ciphertext r) in
  if decide (tag r = seal (profile r) password secret) then Ok secret
  else Err (Other "WrongPasswordError").

Definition profileName (p : Profile) : string :=
  match p with Strong => "strong" | Weak => "weak" end.

(** The JSON double quote. *)
Definition dq : string := String "034"%char "".

(** A member of a JSON object whose value is a string. *)
Definition member (name value : string) : string :=
  dq +:+ name +:+ dq +:+ ":" +:+ dq +:+ value +:+ dq.

Definition hexDigit (n : N) : ascii :=
  if (n <? 10)%N then ascii_of_N (48 + n) else ascii_of_N (87 + n).

Definition hexValue (ch : ascii) : option N :=
  let n := N_of_ascii ch in
  if ((48 <=? n) && (n <=? 57))%N then Some (n - 48)%N
  else if ((97 <=? n) && (n <=? 102))%N then Some (n - 87)%N
  else None.

(** Two hex digits per byte. *)
Fixpoint encodeHex (s : string) : string :=
  match s with
  | "" => ""
  | String ch rest =>
      let n := N_of_ascii ch in
      String (hexDigit (n `div` 16)) (String (hexDigit (n `mod` 16)) (encodeHex rest))
  end.

Fixpoint decodeHex (s : string) : option string :=
  match s with
  | "" => Some ""
  | String hi (String lo rest) =>
      match hexValue hi, hexValue lo, decodeHex rest with
      | Some h, Some l, Some r => Some (String (ascii_of_N (h * 16 + l)) r)
      | _, _, _ => None
      end
  | _ => None
  end.

(** Modelled from the spec: the key file format of section 6, a JSON
    document: one object with the members PublicKey, Profile, Tag and
    Ciphertext, all strings, the ciphertext in hex. *)
Definition serialize (r : EncryptedKeyRecord) : bytes :=
  list_byte_of_string
    ("{" +:+ member "PublicKey" (publicKey r) +:+ "," +:+
     member "Profile" (profileName (profile r)) +:+ "," +:+
     member "Tag" (tag r) +:+ "," +:+
     member "Ciphertext" (encodeHex (ciphertext r)) +:+ "}").

(** [s] without its prefix [p]. *)
Fixpoint stripPrefix (p s : string) : option string :=
  match p, s with
  | "", _ => Some s
  | String a p', String b s' => if decide (a = b) then stripPrefix p' s' else None
  | _, _ => None
  end.

(** The characters a JSON string holds as they are: printable ASCII other
    than the double quote and the backslash. *)
Definition plainChar (ch : ascii) : bool :=
  let n := nat_of_ascii ch in
  (32 <=? n)%nat && (n <=? 126)%nat && negb (n =? 34)%nat && negb (n =? 92)%nat.

(** Reads the characters of a JSON string up to its closing quote. *)
Fixpoint readString (s : string) : option (string * string) :=
  match s with
  | "" => None
  | String ch rest =>
      if decide (ch = "034"%char) then Some ("", rest)
      else if plainChar ch then
        match readString rest with
        | Some (value, after) => Some (String ch value, after)
        | None => None
        end
      else None
  end.

Definition readMember (name s : string) : option (string * string) :=
  match stripPrefix (dq +:+ name +:+ dq +:+ ":" +:+ dq) s with
  | Some rest => readString rest
  | None => None
  end.

(** The four members of a key file, in the order [serialize] writes them. *)
Definition parseObject (s : string) : option (string * string * string * string) :=
  s1 ← stripPrefix "{" s;
  '(pk, s2) ← readMember "PublicKey" s1;
  s3 ← stripPrefix "," s2;
  '(prof, s4) ← readMember "Profile" s3;
  s5 ← stripPrefix "," s4;
  '(tg, s6) ← readMember "Tag" s5;
  s7 ← stripPrefix "," s6;
  '(ct, s8) ← readMember "Ciphertext" s7;
  if decide (s8 = "}") then Some (pk, prof, tg, ct) else None.

Definition parse (bs : bytes) : Result EncryptedKeyRecord :=
  match parseObject (string_of_list_byte bs) with
  | Some (pk, prof, tg, hex) =>
      match decodeHex hex with
      | Some ct =>
          if decide (prof = "strong") then Ok (mkRecord pk Strong tg ct)
          else if decide (prof = "weak") then Ok (mkRecord pk Weak tg ct)
          else Err (Other "MalformedRecordError")
      | None => Err (Other "MalformedRecordError")
      end
  | None => Err (Other "MalformedRecordError")
  end.

(** Modelled from the spec: json.Unmarshal of a key file into a struct with
    the one field PublicKey, a string.  It decodes the objects [serialize]
    writes, each of them a JSON document with a string member PublicKey, and
    gives that member; it fails on everything else, in particular on what is
    not JSON. *)
Definition fieldPublicKey (bs : bytes) : Result string :=
  match parseObject (string_of_list_byte bs) with
  | Some (pk, _, _, _) => Ok pk
  | None => Err (Other "json: cannot decode the key file")
  end.

Definition isHex (ch : ascii) : bool :=
  let n := nat_of_ascii ch in
  ((48 <=? n)%nat && (n <=? 57)%nat) || ((97 <=? n)%nat && (n <=? 102)%nat) ||
  ((65 <=? n)%nat && (n <=? 70)%nat).

(** Modelled from the spec: vrfkey.NewPublicKeyFromHex; a public key is
    rendered as a hex string. *)
Definition newPublicKeyFromHex (s : string) : Result string :=
  match s with
  | String "0" (String "x" digits) =>
      if forallb isHex (list_ascii_of_string digits) then Ok s
      else Err (Other "invalid hex")
  | _ => Err (Other "hex string without 0x prefix")
  end.

Definition matching (pk : string) (st : State) : list EncryptedKeyRecord :=
  filter (λ r, publicKey r = pk) (registry st).

(** Modelled from the spec: a fresh key pair from the random source,
    encrypted under [p]. *)
Definition newKey (password : string) (p : Profile) (st : State) : EncryptedKeyRecord :=
  let secret := pretty (entropy st) in
  let '(ct, tg) := Encrypt secret password p in
  mkRecord (derivePublic secret) p tg ct.

(** Modelled from the spec: 4.2 CreateKey.  Strong profile, persisted; on a
    failed write the key is discarded. *)
Definition createKey (password : string) (st : State) : Result string * State :=
  let r := newKey password Strong st in
  if storageUp st then
    (Ok (publicKey r), mkState (registry st ++ [r]) (S (entropy st)) true)
  else
    (Err (Other "PersistenceError"), mkState (registry st) (S (entropy st)) false).

(** Modelled from the spec: 4.3 CreateWeakTestingKey.  Weak profile, not
    written to the registry. *)
Definition createWeak (password : string) (st : State)
    : Result EncryptedKeyRecord * State :=
  (Ok (newKey password Weak st),
   mkState (registry st) (S (entropy st)) (storageUp st)).

(** Modelled from the spec: 4.4 Import, over the key file format read by
    [parseFile].  Parse, trial decryption, then the duplicate check; a weak
    record is refused. *)
Definition importWith (parseFile : bytes -> Result EncryptedKeyRecord)
    (bs : bytes) (password : string) (st : State) : option error * State :=
  match parseFile bs with
  | Err e => (Some e, st)
  | Ok r =>
      match Decrypt r password with
      | Err e => (Some e, st)
      | Ok secret =>
          if decide (derivePublic secret ≠ publicKey r) then
            (Some (Other "MalformedRecordError"), st)
          else if decide (profile r = Weak) then
            (Some (Other "DowngradeRefusedError"), st)
          else if decide (matching (publicKey r) st ≠ []) then
            (Some MatchingVRFKeyError, st)
          else if storageUp st then
            (None, mkState (registry st ++ [r]) (entropy st) true)
          else (Some (Other "PersistenceError"), st)
      end
  end.

Definition import : bytes -> string -> State -> option error * State :=
  importWith parse.

(** Modelled from the spec: 4.5 Export, over the key file format written by
    [writeFile].  Every record found for the key, and NoSuchKeyError when
    there is none. *)
Definition exportWith (writeFile : EncryptedKeyRecord -> bytes)
    (pk : string) (st : State) : (list bytes * option error) * State :=
  let found := matching pk st in
  ((writeFile <$> found,
    if decide (found = []) then Some (Other "NoSuchKeyError") else None), st).

Definition export : string -> State -> (list bytes * option error) * State :=
  exportWith serialize.

(** Modelled from the spec: 4.6 Delete.  Removes the matching records,
    fails if there is none. *)
Definition delete (pk : string) (st : State) : option error * State :=
  if decide (matching pk st = []) then
    (Some AttemptToDeleteNonExistentKeyFromDB, st)
  else
    (None, mkState (filter (λ r, publicKey r ≠ pk) (registry st))
                   (entropy st) (storageUp st)).

(** Modelled from the spec: 4.7 ListKeys.  The distinct public keys. *)
Definition listKeys (st : State) : Result (list string) * State :=
  (Ok (remove_dups (publicKey <$> registry st)), st).

(** Modelled from the spec: cmd.passwordFromFile; the password is the
    content of the password file. *)
Definition readPassword (path : string) (fs : gmap string bytes) : Result string :=
  match fs !! path with
  | Some content => Ok (string_of_list_byte content)
  | None => Err (ErrNotExist path)
  end.

Definition X : Externals := {|
  PublicKey := string;
  EncryptedSecretKey := EncryptedKeyRecord;
  NewPublicKeyFromHex := newPublicKeyFromHex;
  PublicKey_String := id;
  Marshal := serialize;
  VRFKeyStore := State;
  VRFKeyStore_CreateKey := createKey;
  VRFKeyStore_CreateWeakInMemoryEncryptedKeyXXXTestingOnly := createWeak;
  VRFKeyStore_Import := import;
  VRFKeyStore_Export := export;
  VRFKeyStore_Delete := delete;
  VRFKeyStore_ListKeys := listKeys;
  passwordFromFile := readPassword;
  Unmarshal_PublicKey := fieldPublicKey
|}.

(** A node with an empty registry, a password file and nothing else. *)
Definition emptyStore : State := mkState [] 0 true.

Definition passwordFile : gmap string bytes :=
  {[ "pw.txt" := list_byte_of_string "hunter2" ]}.

Definition world (st : State) (fs : gmap string bytes) (ro : gset string) : World X :=
  mkWorld (X := X) st fs ro ∅ [] [] [].

End MemStore.

(** ** Concrete runs on the in-memory key store *)

Module Scenario.
Import MemStore.

(** Flags: only the password file; password and key file; public key and
    target file; public key only. *)
Definition pwFlag : Context := {[ "password" := "pw.txt" ]}.
Definition pwAndFile : Context := {[ "password" := "pw.txt"; "file" := "key.json" ]}.
Definition pkAndFile : Context := {[ "publicKey" := "0x0"; "file" := "out" ]}.
Definition pkOnly : Context := {[ "publicKey" := "0x0" ]}.

(** A node with an empty registry. *)
Definition fresh : World X := world emptyStore passwordFile ∅.

(** A node whose storage refuses writes. *)
Definition down : World X := world (mkState [] 0 false) passwordFile ∅.

(** Two encrypted copies of the same key pair, under different passwords. *)
Definition copy1 : EncryptedKeyRecord := newKey "hunter2" Strong emptyStore.
Definition copy2 : EncryptedKeyRecord := newKey "letmein" Strong emptyStore.
Definition twoCopies : State := mkState [copy1; copy2] 1 true.

(** A node holding both copies; the same node where the OS refuses to write
    the second export file. *)
Definition held : World X := world twoCopies passwordFile ∅.
Definition heldSecondRefused : World X := world twoCopies passwordFile {[ "out.1" ]}.

(** A node holding the first copy, with that copy also in key.json. *)
Definition withKeyFile : World X :=
  world (mkState [copy1] 1 true) (<["key.json" := serialize copy1]> passwordFile) ∅.

(** The weak key the random source of [emptyStore] yields for hunter2. *)
Definition weakKey : EncryptedKeyRecord := newKey "hunter2" Weak emptyStore.

End Scenario.

(** ** Further notions and runs *)

(** The lines ListKeys prints for [keys], one per key, in order. *)
Definition keyLines (X : Externals) (keys : list (PublicKey X)) : list string :=
  (λ key, PublicKey_String X key +:+ nl) <$> keys.

(** The world after [lines] were printed. *)
Definition printed {X : Externals} (lines : list string) (w : World X) : World X :=
  mkWorld (keystore w) (files w) (unopenable w) (unstatable w) (stdout w ++ lines)
    (logs w) (calls w).

Module Setups.
Import MemStore Scenario.

(** Flags: a public key that is not hex; a password file that is not there;
    password and the second export file. *)
Definition badKey : Context := {[ "publicKey" := "zz"; "file" := "out" ]}.
Definition noSuchPassword : Context := {[ "password" := "nope.txt"; "file" := "key.json" ]}.
Definition pwAndSecond : Context := {[ "password" := "pw.txt"; "file" := "out.1" ]}.

(** A node with an empty registry and the first copy in key.json; the same
    with the second copy, which hunter2 does not open. *)
Definition importable : World X :=
  world (mkState [] 1 true) (<["key.json" := serialize copy1]> passwordFile) ∅.
Definition wrongPassword : World X :=
  world (mkState [] 1 true) (<["key.json" := serialize copy2]> passwordFile) ∅.

(** A node where the OS refuses to write key.json. *)
Definition keyFileRefused : World X := world emptyStore passwordFile {[ "key.json" ]}.

(** A node whose password file stands where a directory would have to be
    for the key file pw.txt/x: os.Stat fails there, and so would the write. *)
Definition pwAndNested : Context := {[ "password" := "pw.txt"; "file" := "pw.txt/x" ]}.
Definition keyFileUnreachable : World X :=
  mkWorld (X := X) emptyStore passwordFile ∅ {[ "pw.txt/x" ]} [] [] [].

(** A key file that is not JSON: the fields in order, separated by colons. *)
Definition colonFile (r : EncryptedKeyRecord) : bytes :=
  list_byte_of_string
    (publicKey r +:+ ":" +:+ profileName (profile r) +:+ ":" +:+ tag r +:+ ":" +:+
     ciphertext r).

(** Splits a string at its first colon. *)
Fixpoint cut (s : string) : option (string * string) :=
  match s with
  | "" => None
  | String ch rest =>
      if decide (ch = ":"%char) then Some ("", rest)
      else match cut rest with
           | Some (a, b) => Some (String ch a, b)
           | None => None
           end
  end.

Definition colonParse (bs : bytes) : Result EncryptedKeyRecord :=
  match cut (string_of_list_byte bs) with
  | Some (pk, s1) =>
      match cut s1 with
      | Some (prof, s2) =>
          match cut s2 with
          | Some (tg, ct) =>
              if decide (prof = "strong") then Ok (mkRecord pk Strong tg ct)
              else if decide (prof = "weak") then Ok (mkRecord pk Weak tg ct)
              else Err (Other "MalformedRecordError")
          | None => Err (Other "MalformedRecordError")
          end
      | None => Err (Other "MalformedRecordError")
      end
  | None => Err (Other "MalformedRecordError")
  end.

(** The in-memory key store with colon-separated key files.  The command's
    JSON decoder is the same, and fails on these files. *)
Definition colonX : Externals := {|
  PublicKey := string;
  EncryptedSecretKey := EncryptedKeyRecord;
  NewPublicKeyFromHex := newPublicKeyFromHex;
  PublicKey_String := id;
  Marshal := colonFile;
  VRFKeyStore := State;
  VRFKeyStore_CreateKey := createKey;
  VRFKeyStore_CreateWeakInMemoryEncryptedKeyXXXTestingOnly := createWeak;
  VRFKeyStore_Import := importWith colonParse;
  VRFKeyStore_Export := exportWith colonFile;
  VRFKeyStore_Delete := delete;
  VRFKeyStore_ListKeys := listKeys;
  passwordFromFile := readPassword;
  Unmarshal_PublicKey := fieldPublicKey
|}.

(** A node of that kind holding the first copy, with that copy also in
    key.json. *)
Definition colonWithKeyFile : World colonX :=
  mkWorld (X := colonX) (mkState [copy1] 1 true)
    (<["key.json" := colonFile copy1]> passwordFile) ∅ ∅ [] [] [].

End Setups.

(** * Properties *)

Ltac unfold_cmd :=
  unfold bind, wrapf, attempt, gets, ret, fail, Println, Printf, Infow,
    vrf_CreateKey, vrf_CreateWeak, vrf_Import, vrf_Export, vrf_Delete,
    vrf_ListKeys, ReadFile, WriteToDisk.


(** ** Paths of the exported copies *)

Lemma string_length_app (s t : string) :
  String.length (s +:+ t) = String.length s + String.length t.
Proof. induction s as [|a s IH]; simpl; [done | by rewrite IH]. Qed.

Lemma ckeypath_first (keypath : string) : ckeypath keypath 0 = keypath.
Proof. reflexivity. Qed.

Lemma ckeypath_later (keypath : string) (i : nat) :
  0 < i -> ckeypath keypath i = keypath +:+ "." +:+ pretty i.
Proof. intros Hi. unfold ckeypath. by rewrite decide_True. Qed.

Lemma ckeypath_suffix_ne (keypath : string) (i : nat) :
  keypath +:+ "." +:+ pretty i ≠ keypath.
Proof.
  intros Heq. apply (f_equal String.length) in Heq.
  rewrite string_length_app in Heq. simpl in Heq. lia.
Qed.

#[global] Instance ckeypath_inj (keypath : string) : Inj (=) (=) (ckeypath keypath).
Proof.
  intros i j. unfold ckeypath. repeat case_decide; intros Heq.
  - apply (inj (String.append keypath)) in Heq.
    apply (inj (String.append ".")) in Heq.
    by apply (inj pretty) in Heq.
  - by apply ckeypath_suffix_ne in Heq.
  - symmetry in Heq. by apply ckeypath_suffix_ne in Heq.
  - lia.
Qed.


Lemma exportPaths_NoDup (keypath : string) (n : nat) : NoDup (exportPaths keypath n).
Proof. unfold exportPaths. apply (NoDup_fmap_2 _). apply NoDup_seq. Qed.

(** ** What the export loop leaves on disk *)


Lemma savedFiles_other keypath i enckeys (fs : gmap string bytes) (p : string) :
  (∀ j, j < length enckeys -> ckeypath keypath (i + j) ≠ p) ->
  savedFiles keypath i enckeys fs !! p = fs !! p.
Proof.
  revert i fs. induction enckeys as [|keyjson rest IH]; intros i fs Hp; [done|].
  simpl. rewrite IH.
  - apply lookup_insert_ne. specialize (Hp 0). rewrite Nat.add_0_r in Hp.
    apply Hp. simpl. lia.
  - intros j Hj. replace (S i + j) with (i + S j) by lia. apply Hp. simpl. lia.
Qed.

Lemma savedFiles_lookup keypath i enckeys (fs : gmap string bytes) j keyjson :
  enckeys !! j = Some keyjson ->
  savedFiles keypath i enckeys fs !! ckeypath keypath (i + j) = Some keyjson.
Proof.
  revert i fs j. induction enckeys as [|k0 rest IH]; intros i fs j Hj; [done|].
  destruct j as [|j]; simpl in *.
  - injection Hj as ->. rewrite Nat.add_0_r, savedFiles_other.
    + apply lookup_insert_eq.
    + intros j _ Heq. apply (inj _) in Heq. lia.
  - replace (i + S j) with (S i + j) by lia. by apply IH.
Qed.

Section Loop.
Context (X : Externals).
Implicit Types (w : World X) (c : Context).

Lemma set_files_same w : set_files (files w) w = w.
Proof. by destruct w. Qed.

(** When none of the paths is refused, every copy is saved. *)
Lemma writeKeys_ok keypath i enckeys w :
  (∀ j, j < length enckeys -> ckeypath keypath (i + j) ∉ unwritable w) ->
  writeKeys X keypath i enckeys w
  = (Ok tt, set_files (savedFiles keypath i enckeys (files w)) w).
Proof.
  revert i w. induction enckeys as [|keyjson rest IH]; intros i w Hw; simpl.
  - by rewrite set_files_same.
  - unfold bind, wrapf, WriteFile.
    rewrite decide_False.
    2:{ specialize (Hw 0). rewrite Nat.add_0_r in Hw. apply Hw. simpl. lia. }
    rewrite IH; [done|].
    intros j Hj. simpl. replace (S (i + j)) with (i + S j) by lia.
    apply Hw. simpl. lia.
Qed.

(** When the path of the copy at index [k] is the first one refused, the loop
    stops there with the wrapped error, having saved the copies before it. *)
Lemma writeKeys_fail keypath i enckeys k keyjson w :
  enckeys !! k = Some keyjson ->
  ckeypath keypath (i + k) ∈ unwritable w ->
  (∀ j, j < k -> ckeypath keypath (i + j) ∉ unwritable w) ->
  writeKeys X keypath i enckeys w
  = (Err (Wrap (ErrPermission (ckeypath keypath (i + k)))
            ("could not save " +:+ string_of_list_byte keyjson +:+ " to " +:+
             ckeypath keypath (i + k))),
     set_files (savedFiles keypath i (take k enckeys) (files w)) w).
Proof.
  revert i k w. induction enckeys as [|k0 rest IH]; intros i k w Hk Hbad Hgood; [done|].
  destruct k as [|k]; simpl in *.
  - injection Hk as ->. rewrite Nat.add_0_r in *.
    unfold bind, wrapf, WriteFile. rewrite decide_True by done.
    by rewrite set_files_same.
  - unfold bind, wrapf, WriteFile.
    rewrite decide_False.
    2:{ specialize (Hgood 0). rewrite Nat.add_0_r in Hgood. apply Hgood. lia. }
    replace (i + S k) with (S i + k) in * by lia.
    rewrite (IH (S i) k); [done..|].
    intros j Hj. simpl. replace (S (i + j)) with (i + S j) by lia.
    apply Hgood. lia.
Qed.

End Loop.

(** ** Reading the flags *)


Lemma string_app_assoc (s t u : string) : (s +:+ t) +:+ u = s +:+ t +:+ u.
Proof.
  induction s as [|a s IH]; [done|].
  change (String a ((s +:+ t) +:+ u) = String a (s +:+ t +:+ u)).
  by rewrite IH.
Qed.


Section Flags.
Context (X : Externals).
Implicit Types (w : World X) (c : Context).

Lemma getPassword_unset c w :
  IsSet c "password" = false ->
  getPassword X c w = (Err (Errorf "must specify password file"), w).
Proof. intros Hc. unfold getPassword. by rewrite Hc. Qed.

Lemma getPassword_read c w raw :
  IsSet c "password" = true ->
  passwordFromFile X (String_ c "password") (files w) = Ok raw ->
  getPassword X c w = (Ok (list_byte_of_string raw), w).
Proof.
  intros Hc Hraw. unfold getPassword. rewrite Hc. simpl.
  unfold_cmd. by rewrite Hraw.
Qed.

Lemma getPassword_unreadable c w e :
  IsSet c "password" = true ->
  passwordFromFile X (String_ c "password") (files w) = Err e ->
  getPassword X c w
  = (Err (Wrap e ("could not read password from file " +:+ String_ c "password")), w).
Proof.
  intros Hc Hraw. unfold getPassword. rewrite Hc. simpl.
  unfold_cmd. by rewrite Hraw.
Qed.

Lemma getPublicKey_ok c w pk :
  IsSet c "publicKey" = true ->
  NewPublicKeyFromHex X (String_ c "publicKey") = Ok pk ->
  getPublicKey X c w = (Ok pk, w).
Proof.
  intros Hc Hpk. unfold getPublicKey. rewrite Hc. simpl.
  unfold_cmd. by rewrite Hpk.
Qed.

Lemma getPasswordAndKeyFile_read c w raw keyjson :
  IsSet c "password" = true ->
  passwordFromFile X (String_ c "password") (files w) = Ok raw ->
  IsSet c "file" = true ->
  files w !! String_ c "file" = Some keyjson ->
  getPasswordAndKeyFile X c w = (Ok (list_byte_of_string raw, keyjson), w).
Proof.
  intros Hc Hraw Hf Hjson. unfold getPasswordAndKeyFile, bind.
  rewrite (getPassword_read c w raw Hc Hraw), Hf. simpl.
  unfold_cmd. by rewrite Hjson.
Qed.

(** getKeys hands on whatever the key store returned, whether or not the key
    store reported an error. *)
Lemma getKeys_run c w pk enckeys oerr ks' :
  IsSet c "publicKey" = true ->
  NewPublicKeyFromHex X (String_ c "publicKey") = Ok pk ->
  VRFKeyStore_Export X pk (keystore w) = ((enckeys, oerr), ks') ->
  getKeys X c w =
    (Ok enckeys,
     let w1 := add_call (CallExport pk) (set_keystore ks' w) in
     match oerr with
     | Some e => add_log (Infow_entry "while retrieving keys with matching public key"
                            [LogPublicKey pk; LogError e]) w1
     | None => w1
     end).
Proof.
  intros Hc Hpk Hexp. unfold getKeys, bind.
  rewrite (getPublicKey_ok c w pk Hc Hpk).
  unfold vrf_Export. rewrite Hexp. by destruct oerr.
Qed.

End Flags.

(** ** The commands *)

Section Claims.
Context (X : Externals).
Implicit Types (w : World X) (c : Context).

(** What the three password-consuming commands do once the password is read. *)
Lemma CreateVRFKey_run c w raw :
  IsSet c "password" = true ->
  passwordFromFile X (String_ c "password") (files w) = Ok raw ->
  CreateVRFKey X c w =
    let w1 := add_call (CallCreateKey raw)
                (set_keystore (VRFKeyStore_CreateKey X raw (keystore w)).2 w) in
    match (VRFKeyStore_CreateKey X raw (keystore w)).1 with
    | Ok key => (Ok tt, add_stdout (created_message (PublicKey_String X key)) w1)
    | Err e => (Err (Wrap e "while creating new account"), w1)
    end.
Proof.
  intros Hc Hraw. unfold CreateVRFKey, bind.
  rewrite (getPassword_read X c w raw Hc Hraw), string_of_list_byte_of_string.
  unfold_cmd. by destruct (VRFKeyStore_CreateKey X raw (keystore w)) as [[key|e] ks].
Qed.

(** The overwrite check looks at the files and at what os.Stat can reach,
    and at nothing else. *)
Lemma noFileToOverwrite_same path w w' :
  files w' = files w -> unstatable w' = unstatable w ->
  noFileToOverwrite path w' = noFileToOverwrite path w.
Proof. intros Hf Hu. unfold noFileToOverwrite, Stat. by rewrite Hf, Hu. Qed.

Lemma noFileToOverwrite_existing path w :
  is_Some (files w !! path) -> noFileToOverwrite path w = false.
Proof.
  intros [content Hcontent]. unfold noFileToOverwrite, Stat.
  case_decide; [done|]. by rewrite Hcontent.
Qed.

Lemma noFileToOverwrite_true path w :
  noFileToOverwrite path w = true <-> files w !! path = None ∧ path ∉ unstatable w.
Proof.
  unfold noFileToOverwrite, Stat. case_decide.
  - simpl. split; [done | by intros [_ ?]].
  - destruct (files w !! path); simpl; split; try done; by intros [? _].
Qed.

Lemma CreateAndExportWeakVRFKey_run c w raw :
  IsSet c "password" = true ->
  passwordFromFile X (String_ c "password") (files w) = Ok raw ->
  CreateAndExportWeakVRFKey X c w =
    let r := VRFKeyStore_CreateWeakInMemoryEncryptedKeyXXXTestingOnly X raw (keystore w) in
    let w1 := add_call (CallCreateWeak raw) (set_keystore r.2 w) in
    match r.1 with
    | Ok key =>
        if negb (IsSet c "file") || negb (noFileToOverwrite (String_ c "file") w)
        then (Err (Errorf overwrite_errmsg), add_stdout (overwrite_errmsg +:+ nl) w1)
        else WriteFile (String_ c "file") (Marshal X key)
               (add_stdout ("Don't use this key for anything sensitive!" +:+ nl) w1)
    | Err e => (Err (Wrap e "while creating testing key"), w1)
    end.
Proof.
  intros Hc Hraw. unfold CreateAndExportWeakVRFKey, bind.
  rewrite (getPassword_read X c w raw Hc Hraw), string_of_list_byte_of_string.
  unfold_cmd.
  destruct (VRFKeyStore_CreateWeakInMemoryEncryptedKeyXXXTestingOnly X raw (keystore w))
    as [[key|e] ks]; simpl; [|done].
  rewrite (noFileToOverwrite_same _ w) by done.
  by destruct (negb (IsSet c "file") || negb (noFileToOverwrite (String_ c "file") w)).
Qed.

Lemma ImportVRFKey_run c w raw keyjson :
  IsSet c "password" = true ->
  passwordFromFile X (String_ c "password") (files w) = Ok raw ->
  IsSet c "file" = true ->
  files w !! String_ c "file" = Some keyjson ->
  ImportVRFKey X c w =
    let r := VRFKeyStore_Import X keyjson raw (keystore w) in
    let w1 := add_call (CallImport keyjson raw) (set_keystore r.2 w) in
    match r.1 with
    | None => (Ok tt, w1)
    | Some err =>
        if decide (err = MatchingVRFKeyError) then
          let w2 := add_stdout
                      ("The database already has an entry for that public key." +:+ nl) w1 in
          match Unmarshal_PublicKey X keyjson with
          | Err e =>
              (Err (Wrap e ("while extracting public key from " +:+
                            string_of_list_byte keyjson)),
               add_stdout ("could not extract public key from json input" +:+ nl) w2)
          | Ok publicKey =>
              (Err (Wrap err "while attempting to import key from CL"),
               add_stdout (remedy_message publicKey +:+ nl) w2)
          end
        else (Err err, w1)
    end.
Proof.
  intros Hc Hraw Hf Hjson. unfold ImportVRFKey, bind.
  rewrite (getPasswordAndKeyFile_read X c w raw keyjson Hc Hraw Hf Hjson).
  rewrite string_of_list_byte_of_string. unfold_cmd.
  destruct (VRFKeyStore_Import X keyjson raw (keystore w)) as [[err|] ks]; simpl; [|done].
  destruct (decide (err = MatchingVRFKeyError)); [|done].
  by destruct (Unmarshal_PublicKey X keyjson).
Qed.

Lemma ExportVRFKey_run c w pk enckeys oerr ks' :
  IsSet c "publicKey" = true ->
  NewPublicKeyFromHex X (String_ c "publicKey") = Ok pk ->
  VRFKeyStore_Export X pk (keystore w) = ((enckeys, oerr), ks') ->
  ExportVRFKey X c w =
    let w1 := (getKeys X c w).2 in
    if IsSet c "file" then writeKeys X (String_ c "file") 0 enckeys w1
    else (Err (Errorf "must specify file to export to"), w1).
Proof.
  intros Hc Hpk Hexp. unfold ExportVRFKey, bind.
  rewrite (getKeys_run X c w pk enckeys oerr ks' Hc Hpk Hexp). simpl.
  by destruct (IsSet c "file").
Qed.

(** C1 (as amended).  For every public key, when the key store's export
    reports an error -- a record that could not be read, or that no record
    was found -- the export command does not fail on that account: getKeys
    logs the error and hands on whatever records the key store returned, and
    the command goes on to save them; with no record at all and a target file
    given, it returns without error and leaves the files as they were. *)
Theorem C1_export_tolerates_store_errors c w pk enckeys oerr ks' :
  IsSet c "publicKey" = true ->
  NewPublicKeyFromHex X (String_ c "publicKey") = Ok pk ->
  VRFKeyStore_Export X pk (keystore w) = ((enckeys, oerr), ks') ->
  ∃ w1, getKeys X c w = (Ok enckeys, w1) ∧
        files w1 = files w ∧
        logs w1 =
          (logs w ++
           match oerr with
           | Some e => [Infow_entry "while retrieving keys with matching public key"
                          [LogPublicKey pk; LogError e]]
           | None => []
           end)%list ∧
        (IsSet c "file" = true ->
           ExportVRFKey X c w = writeKeys X (String_ c "file") 0 enckeys w1) ∧
        (IsSet c "file" = true -> enckeys = [] -> ExportVRFKey X c w = (Ok tt, w1)).
Proof.
  intros Hc Hpk Hexp.
  pose proof (getKeys_run X c w pk enckeys oerr ks' Hc Hpk Hexp) as Hkeys.
  pose proof (ExportVRFKey_run c w pk enckeys oerr ks' Hc Hpk Hexp) as Hrun.
  rewrite Hkeys in Hrun. simpl in Hrun.
  eexists. split; [exact Hkeys|].
  split; [by destruct oerr|].
  split; [destruct oerr; simpl; [done | by rewrite app_nil_r]|].
  split.
  - intros Hf. by rewrite Hrun, Hf.
  - intros Hf ->. by rewrite Hrun, Hf.
Qed.

(** C2 (as amended).  For every invocation of the weak-testing-key command
    where the caller gives no target file, or gives the path of a file that
    exists, the command fails and no file is written; when the password is
    read and the key store generates the key, the failure is the
    overwrite-refused error, printed and returned after the key store has
    generated the key. *)
Theorem C2_weak_key_refused_after_generation c w :
  IsSet c "file" = false ∨ is_Some (files w !! String_ c "file") ->
  ∃ e w', CreateAndExportWeakVRFKey X c w = (Err e, w') ∧
          files w' = files w ∧
          (∀ raw key ks',
             IsSet c "password" = true ->
             passwordFromFile X (String_ c "password") (files w) = Ok raw ->
             VRFKeyStore_CreateWeakInMemoryEncryptedKeyXXXTestingOnly X raw (keystore w)
               = (Ok key, ks') ->
             e = Errorf overwrite_errmsg ∧
             stdout w' = (stdout w ++ [overwrite_errmsg +:+ nl])%list ∧
             calls w' = (calls w ++ [CallCreateWeak raw])%list ∧
             keystore w' = ks').
Proof.
  intros Hfile.
  assert (negb (IsSet c "file")
          || negb (noFileToOverwrite (String_ c "file") w) = true) as Hrefuse.
  { destruct Hfile as [-> | Hthere]; [done|].
    rewrite (noFileToOverwrite_existing _ w Hthere). apply orb_true_r. }
  destruct (IsSet c "password") eqn:Hc.
  2:{ exists (Errorf "must specify password file"), w.
      unfold CreateAndExportWeakVRFKey, bind.
      rewrite (getPassword_unset X c w Hc). by repeat split. }
  destruct (passwordFromFile X (String_ c "password") (files w)) as [raw|e0] eqn:Hraw.
  2:{ eexists _, w. unfold CreateAndExportWeakVRFKey, bind.
      rewrite (getPassword_unreadable X c w e0 Hc Hraw). by repeat split. }
  rewrite (CreateAndExportWeakVRFKey_run c w raw Hc Hraw). simpl.
  destruct (VRFKeyStore_CreateWeakInMemoryEncryptedKeyXXXTestingOnly X raw (keystore w))
    as [[key|e0] ks] eqn:Hgen; simpl.
  - rewrite Hrefuse. eexists _, _. split; [done|]. split; [done|].
    intros raw' key' ks' _ [= <-] Hgen'. rewrite Hgen in Hgen'.
    by injection Hgen' as <- <-.
  - eexists _, _. split; [done|]. split; [done|].
    intros raw' key' ks' _ [= <-] Hgen'. rewrite Hgen in Hgen'. discriminate.
Qed.

(** C3.  For every list of records the key store's export returns and every
    base path, when no target path is refused the export command succeeds and
    every record is then on disk at its own path: the first at the base path,
    the one at index i > 0 at the base path followed by a dot and i in
    decimal; these paths are pairwise distinct, and no other file changes. *)
Theorem C3_export_writes_distinct_paths c w pk enckeys oerr ks' :
  IsSet c "publicKey" = true ->
  NewPublicKeyFromHex X (String_ c "publicKey") = Ok pk ->
  VRFKeyStore_Export X pk (keystore w) = ((enckeys, oerr), ks') ->
  IsSet c "file" = true ->
  (∀ i, i < length enckeys -> ckeypath (String_ c "file") i ∉ unwritable w) ->
  let keypath := String_ c "file" in
  ∃ w', ExportVRFKey X c w = (Ok tt, w') ∧
        NoDup (exportPaths keypath (length enckeys)) ∧
        (∀ i keyjson, enckeys !! i = Some keyjson ->
           files w' !! ckeypath keypath i = Some keyjson) ∧
        ckeypath keypath 0 = keypath ∧
        (∀ i, 0 < i -> ckeypath keypath i = keypath +:+ "." +:+ pretty i) ∧
        (∀ p, p ∉ exportPaths keypath (length enckeys) ->
           files w' !! p = files w !! p).
Proof.
  intros Hc Hpk Hexp Hf Hw keypath.
  rewrite (ExportVRFKey_run c w pk enckeys oerr ks' Hc Hpk Hexp).
  rewrite (getKeys_run X c w pk enckeys oerr ks' Hc Hpk Hexp). simpl. rewrite Hf.
  rewrite writeKeys_ok by (by destruct oerr).
  eexists. split; [done|].
  assert (∀ w0 : World X, files w0 = files w ->
          files (set_files (savedFiles keypath 0 enckeys (files w0)) w0)
          = savedFiles keypath 0 enckeys (files w)) as Hfiles.
  { intros w0 <-. done. }
  rewrite Hfiles by (by destruct oerr).
  split; [apply exportPaths_NoDup|].
  split; [intros i keyjson Hi; by apply (savedFiles_lookup keypath 0)|].
  split; [done|].
  split; [intros i Hi; by apply ckeypath_later|].
  intros p Hp. apply savedFiles_other. intros j Hj <-. apply Hp.
  unfold exportPaths. apply list_elem_of_fmap. exists j.
  split; [done|]. apply elem_of_seq. lia.
Qed.

(** C4 (as amended).  For every import of a key file whose public key the
    key store reports as already present (store.MatchingVRFKeyError), the
    import command fails and prints that the database already has an entry
    for that public key.  When the public key can be decoded from the key
    file, the failure is that duplicate-key error, wrapped, and the command
    prints the remedy: the text names the public key inside the delete
    command to run, and the export command to back the old key up with. *)
Theorem C4_import_duplicate_names_key_and_remedy c w raw keyjson ks' :
  IsSet c "password" = true ->
  passwordFromFile X (String_ c "password") (files w) = Ok raw ->
  IsSet c "file" = true ->
  files w !! String_ c "file" = Some keyjson ->
  VRFKeyStore_Import X keyjson raw (keystore w) = (Some MatchingVRFKeyError, ks') ->
  ∃ e w', ImportVRFKey X c w = (Err e, w') ∧
          keystore w' = ks' ∧ files w' = files w ∧
          (∃ more, stdout w' =
             (stdout w ++
              ("The database already has an entry for that public key." +:+ nl)
              :: more)%list) ∧
          (∀ publicKey,
             Unmarshal_PublicKey X keyjson = Ok publicKey ->
             e = Wrap MatchingVRFKeyError "while attempting to import key from CL" ∧
             stdout w' =
               (stdout w ++
                ["The database already has an entry for that public key." +:+ nl;
                 remedy_message publicKey +:+ nl])%list ∧
             contains (remedy_message publicKey)
               ("delete the old key with the command" +:+ nl +:+ nl +:+
                "`chainlink local delete -pk " +:+ publicKey +:+ "`") ∧
             contains (remedy_message publicKey)
               ("back it up first, with chainlink local export -pk <public_key> -f <backup_path>") ∧
             contains (remedy_message publicKey)
               "If you want to import the new key anyway").
Proof.
  intros Hc Hraw Hf Hjson Himp.
  rewrite (ImportVRFKey_run c w raw keyjson Hc Hraw Hf Hjson), Himp. simpl.
  destruct (Unmarshal_PublicKey X keyjson) as [pk|e0] eqn:Hpk.
  2:{ eexists _, _. split; [done|]. simpl. split; [done|]. split; [done|].
      split; [|by intros publicKey [=]].
      eexists. by rewrite <- app_assoc. }
  eexists _, _. split; [done|]. simpl. split; [done|]. split; [done|].
  split; [eexists; by rewrite <- app_assoc|].
  intros publicKey [= <-].
  split; [done|].
  split; [by rewrite <- app_assoc|].
  split.
  { exists "If you want to import the new key anyway, ",
      (nl +:+ nl +:+ "(but maybe back it up first, with " +:+
       "chainlink local export -pk <public_key> -f <backup_path>`)").
    unfold remedy_message. rewrite !string_app_assoc. done. }
  split.
  { exists ("If you want to import the new key anyway, delete the old key with the command"
            +:+ nl +:+ nl +:+ "`chainlink local delete -pk " +:+ pk +:+ "`"
            +:+ nl +:+ nl +:+ "(but maybe "),
      "`)".
    unfold remedy_message. rewrite !string_app_assoc. done. }
  exists "", (", delete the old key with the command" +:+ nl +:+ nl +:+
    "`chainlink local delete -pk " +:+ pk +:+ "`" +:+ nl +:+ nl +:+
    "(but maybe back it up first, with " +:+
    "chainlink local export -pk <public_key> -f <backup_path>`)").
  done.
Qed.

(** C5.  For every public key the key store reports to have no record
    (store.AttemptToDeleteNonExistentKeyFromDB), the delete command fails
    with that error, it does not return success, and what it prints names
    the public key. *)
Theorem C5_delete_absent_key_fails c w pk ks' :
  IsSet c "publicKey" = true ->
  NewPublicKeyFromHex X (String_ c "publicKey") = Ok pk ->
  VRFKeyStore_Delete X pk (keystore w)
    = (Some AttemptToDeleteNonExistentKeyFromDB, ks') ->
  ∃ w', DeleteVRFKey X c w = (Err AttemptToDeleteNonExistentKeyFromDB, w') ∧
        stdout w' =
          (stdout w ++ ["There is already no entry in the DB for " +:+
                        PublicKey_String X pk +:+ nl])%list ∧
        contains ("There is already no entry in the DB for " +:+
                  PublicKey_String X pk +:+ nl) (PublicKey_String X pk) ∧
        keystore w' = ks'.
Proof.
  intros Hc Hpk Hdel. unfold DeleteVRFKey, bind.
  rewrite (getPublicKey_ok X c w pk Hc Hpk).
  unfold attempt, vrf_Delete. rewrite Hdel. simpl.
  eexists. split; [done|]. simpl.
  split; [by rewrite string_app_assoc|].
  split; [|done].
  by exists "There is already no entry in the DB for ", nl.
Qed.

(** C6.  For every successful invocation of the weak-testing-key command,
    the record the key store generated is written to the file named by the
    file flag and to no other file, the only key-store method invoked is the
    weak in-memory creation, and the persistent registry is as it was. *)
Theorem C6_weak_key_only_on_disk {R : Type} (registry : VRFKeyStore X -> R) c w w' :
  weak_key_not_persisted X registry ->
  CreateAndExportWeakVRFKey X c w = (Ok tt, w') ->
  registry (keystore w') = registry (keystore w) ∧
  IsSet c "file" = true ∧
  files w !! String_ c "file" = None ∧
  (∃ raw key ks',
     VRFKeyStore_CreateWeakInMemoryEncryptedKeyXXXTestingOnly X raw (keystore w)
       = (Ok key, ks') ∧
     calls w' = (calls w ++ [CallCreateWeak raw])%list ∧
     files w' = <[String_ c "file" := Marshal X key]> (files w)) ∧
  (∀ p, p ≠ String_ c "file" -> files w' !! p = files w !! p).
Proof.
  intros Hreg Hrun.
  destruct (IsSet c "password") eqn:Hc.
  2:{ unfold CreateAndExportWeakVRFKey, bind in Hrun.
      by rewrite (getPassword_unset X c w Hc) in Hrun. }
  destruct (passwordFromFile X (String_ c "password") (files w)) as [raw|e] eqn:Hraw.
  2:{ unfold CreateAndExportWeakVRFKey, bind in Hrun.
      by rewrite (getPassword_unreadable X c w e Hc Hraw) in Hrun. }
  rewrite (CreateAndExportWeakVRFKey_run c w raw Hc Hraw) in Hrun.
  pose proof (Hreg raw (keystore w)) as Hsame.
  destruct (VRFKeyStore_CreateWeakInMemoryEncryptedKeyXXXTestingOnly X raw (keystore w))
    as [[key|e] ks'] eqn:Hgen; simpl in *; [|done].
  destruct (IsSet c "file") eqn:Hf; simpl in Hrun; [|done].
  destruct (noFileToOverwrite (String_ c "file") w) eqn:Hfree; simpl in Hrun; [|done].
  apply noFileToOverwrite_true in Hfree as [Hold _].
  unfold WriteFile in Hrun. simpl in Hrun.
  case_decide; [done|].
  injection Hrun as <-. simpl.
  split; [done|]. split; [done|]. split; [done|].
  split; [by exists raw, key, ks'|].
  intros p Hp. by apply lookup_insert_ne.
Qed.

(** C7.  When no password file is given, each of create key, create weak
    testing key and import fails with an error and leaves the world as it
    was: no key-store method has been invoked.  When the password file is
    read, the password is the argument of the one key-store method the
    command invokes, and this layer stores it nowhere: create and import
    write no file and no log entry, and the weak-key command writes at most
    the marshalled key to the target file. *)
Theorem C7_password_required_and_only_passed_on c w :
  (IsSet c "password" = false ->
     CreateVRFKey X c w = (Err (Errorf "must specify password file"), w) ∧
     CreateAndExportWeakVRFKey X c w = (Err (Errorf "must specify password file"), w) ∧
     ImportVRFKey X c w = (Err (Errorf "must specify password file"), w)) ∧
  (∀ raw,
     IsSet c "password" = true ->
     passwordFromFile X (String_ c "password") (files w) = Ok raw ->
     (let w1 := (CreateVRFKey X c w).2 in
      calls w1 = (calls w ++ [CallCreateKey raw])%list ∧
      files w1 = files w ∧ logs w1 = logs w) ∧
     (let w2 := (CreateAndExportWeakVRFKey X c w).2 in
      calls w2 = (calls w ++ [CallCreateWeak raw])%list ∧
      logs w2 = logs w ∧
      (files w2 = files w ∨
       ∃ key ks',
         VRFKeyStore_CreateWeakInMemoryEncryptedKeyXXXTestingOnly X raw (keystore w)
           = (Ok key, ks') ∧
         files w2 = <[String_ c "file" := Marshal X key]> (files w))) ∧
     (∀ keyjson,
        IsSet c "file" = true ->
        files w !! String_ c "file" = Some keyjson ->
        let w3 := (ImportVRFKey X c w).2 in
        calls w3 = (calls w ++ [CallImport keyjson raw])%list ∧
        files w3 = files w ∧ logs w3 = logs w)).
Proof.
  split.
  - intros Hc.
    unfold CreateVRFKey, CreateAndExportWeakVRFKey, ImportVRFKey,
      getPasswordAndKeyFile, bind.
    by rewrite (getPassword_unset X c w Hc).
  - intros raw Hc Hraw. split; [|split].
    + rewrite (CreateVRFKey_run c w raw Hc Hraw). simpl.
      by destruct (VRFKeyStore_CreateKey X raw (keystore w)) as [[key|e] ks].
    + rewrite (CreateAndExportWeakVRFKey_run c w raw Hc Hraw). simpl.
      destruct (VRFKeyStore_CreateWeakInMemoryEncryptedKeyXXXTestingOnly X raw (keystore w))
        as [[key|e] ks] eqn:Hgen; simpl; [|by auto].
      destruct (negb (IsSet c "file")
                || negb (noFileToOverwrite (String_ c "file") w)); [by auto|].
      unfold WriteFile. simpl.
      case_decide; simpl; [by auto|].
      split; [done|]. split; [done|]. right. by exists key, ks.
    + intros keyjson Hf Hjson.
      rewrite (ImportVRFKey_run c w raw keyjson Hc Hraw Hf Hjson). simpl.
      destruct (VRFKeyStore_Import X keyjson raw (keystore w)) as [[err|] ks];
        simpl; [|done].
      destruct (decide (err = MatchingVRFKeyError)); [|done].
      by destruct (Unmarshal_PublicKey X keyjson).
Qed.

(** C8.  With the password read: when the key store creates the key, the
    create command returns no error and prints the new public key together
    with the export command for it; when the key store fails, the command
    returns the key store's error wrapped and prints nothing. *)
Theorem C8_create_reports_key_or_wrapped_error c w raw ks' :
  IsSet c "password" = true ->
  passwordFromFile X (String_ c "password") (files w) = Ok raw ->
  (∀ key,
     VRFKeyStore_CreateKey X raw (keystore w) = (Ok key, ks') ->
     ∃ w', CreateVRFKey X c w = (Ok tt, w') ∧
           stdout w' = (stdout w ++ [created_message (PublicKey_String X key)])%list ∧
           contains (created_message (PublicKey_String X key))
             ("Created keypair, with public key" +:+ nl +:+ nl +:+
              PublicKey_String X key +:+ nl) ∧
           contains (created_message (PublicKey_String X key))
             ("chainlink local vrf export -f <save_path> -pk " +:+
              PublicKey_String X key +:+ nl) ∧
           keystore w' = ks') ∧
  (∀ e,
     VRFKeyStore_CreateKey X raw (keystore w) = (Err e, ks') ->
     ∃ w', CreateVRFKey X c w = (Err (Wrap e "while creating new account"), w') ∧
           stdout w' = stdout w ∧ keystore w' = ks').
Proof.
  intros Hc Hraw. split.
  - intros key Hgen. rewrite (CreateVRFKey_run c w raw Hc Hraw), Hgen. simpl.
    eexists. split; [done|]. simpl. split; [done|]. split; [|split; [|done]].
    + exists "", (nl +:+
        "The following command will export the encrypted secret key from the db to <save_path>:"
        +:+ nl +:+ nl +:+ "chainlink local vrf export -f <save_path> -pk " +:+
        PublicKey_String X key +:+ nl).
      unfold created_message. rewrite !string_app_assoc. done.
    + exists ("Created keypair, with public key" +:+ nl +:+ nl +:+
              PublicKey_String X key +:+ nl +:+ nl +:+
              "The following command will export the encrypted secret key from the db to <save_path>:"
              +:+ nl +:+ nl), "".
      unfold created_message. rewrite !string_app_assoc. done.
  - intros e Hgen. rewrite (CreateVRFKey_run c w raw Hc Hraw), Hgen. simpl.
    by eexists.
Qed.

(** C9.  Forget returns no error for every input and does nothing: the
    world after it -- registry, in-memory key store, files, output, log --
    is the world before it. *)
Theorem C9_forget_does_nothing c w : Forget X c w = (Ok tt, w).
Proof. reflexivity. Qed.

(** C10.  For every export where the write of the record at index i is the
    one that fails, the export command returns the wrapped write error, the
    records at the indices before i are on disk at their paths, and the file
    at the path of every index from i on is as it was before the command. *)
Theorem C10_export_stops_at_failed_write c w pk enckeys oerr ks' i keyjson :
  IsSet c "publicKey" = true ->
  NewPublicKeyFromHex X (String_ c "publicKey") = Ok pk ->
  VRFKeyStore_Export X pk (keystore w) = ((enckeys, oerr), ks') ->
  IsSet c "file" = true ->
  enckeys !! i = Some keyjson ->
  ckeypath (String_ c "file") i ∈ unwritable w ->
  (∀ j, j < i -> ckeypath (String_ c "file") j ∉ unwritable w) ->
  let keypath := String_ c "file" in
  ∃ w', ExportVRFKey X c w
        = (Err (Wrap (ErrPermission (ckeypath keypath i))
                  ("could not save " +:+ string_of_list_byte keyjson +:+ " to " +:+
                   ckeypath keypath i)), w') ∧
        (∀ j kj, j < i -> enckeys !! j = Some kj ->
           files w' !! ckeypath keypath j = Some kj) ∧
        (∀ j, i <= j -> files w' !! ckeypath keypath j = files w !! ckeypath keypath j).
Proof.
  intros Hc Hpk Hexp Hf Hi Hbad Hgood keypath.
  rewrite (ExportVRFKey_run c w pk enckeys oerr ks' Hc Hpk Hexp).
  rewrite (getKeys_run X c w pk enckeys oerr ks' Hc Hpk Hexp). simpl. rewrite Hf.
  rewrite (writeKeys_fail X _ 0 enckeys i keyjson) by (by destruct oerr).
  eexists. split; [done|].
  assert (∀ w0 : World X, files w0 = files w ->
          files (set_files (savedFiles keypath 0 (take i enckeys) (files w0)) w0)
          = savedFiles keypath 0 (take i enckeys) (files w)) as Hfiles.
  { intros w0 <-. done. }
  rewrite Hfiles by (by destruct oerr).
  split.
  - intros j kj Hj Hkj. apply (savedFiles_lookup keypath 0).
    by rewrite lookup_take_lt.
  - intros j Hj. apply savedFiles_other. intros j' Hj' Heq.
    apply (inj _) in Heq. rewrite length_take in Hj'. simpl in Heq. lia.
Qed.

End Claims.

(** ** The in-memory key store meets what the commands are told *)

Module MemStoreFacts.
Import MemStore.

Lemma createWeak_not_persisted : weak_key_not_persisted X registry.
Proof. intros phrase ks. reflexivity. Qed.

Lemma delete_absent pk st :
  matching pk st = [] -> delete pk st = (Some AttemptToDeleteNonExistentKeyFromDB, st).
Proof. intros Hnone. unfold delete. by rewrite decide_True. Qed.

Lemma export_absent pk st :
  matching pk st = [] -> export pk st = (([], Some (Other "NoSuchKeyError")), st).
Proof. intros Hnone. unfold export, exportWith. by rewrite Hnone. Qed.

(** A well-formed strong record that the password opens is refused as a
    duplicate exactly when the registry already has its public key. *)
Lemma import_duplicate bs password r secret st :
  parse bs = Ok r ->
  Decrypt r password = Ok secret ->
  derivePublic secret = publicKey r ->
  profile r = Strong ->
  matching (publicKey r) st ≠ [] ->
  import bs password st = (Some MatchingVRFKeyError, st).
Proof.
  intros Hparse Hdec Hpub Hprof Hdup. unfold import, importWith.
  rewrite Hparse, Hdec.
  rewrite decide_False by (intros Hne; by apply Hne).
  rewrite decide_False by (rewrite Hprof; discriminate).
  by rewrite decide_True.
Qed.

Example decrypt_round_trip :
  Decrypt Scenario.copy1 "hunter2" = Ok "0" ∧
  Decrypt Scenario.copy1 "letmein" = Err (Other "WrongPasswordError") ∧
  Decrypt Scenario.copy2 "letmein" = Ok "0".
Proof. by vm_compute. Qed.

Example key_file_round_trip :
  parse (serialize Scenario.copy1) = Ok Scenario.copy1 ∧
  fieldPublicKey (serialize Scenario.copy1) = Ok "0x0".
Proof. by vm_compute. Qed.

Example import_then_duplicate :
  let st := mkState [] 1 true in
  import (serialize Scenario.copy1) "hunter2" st
  = (None, mkState [Scenario.copy1] 1 true) ∧
  import (serialize Scenario.copy2) "letmein" (mkState [Scenario.copy1] 1 true)
  = (Some MatchingVRFKeyError, mkState [Scenario.copy1] 1 true) ∧
  import (serialize Scenario.copy1) "letmein" st
  = (Some (Other "WrongPasswordError"), st) ∧
  import (serialize Scenario.weakKey) "hunter2" st
  = (Some (Other "DowngradeRefusedError"), st).
Proof. by vm_compute. Qed.

End MemStoreFacts.

(** ** The claims on concrete runs *)

Module Runs.
Import MemStore Scenario.

Example ckeypath_examples :
  ckeypath "out" 0 = "out" ∧ ckeypath "out" 1 = "out.1" ∧
  ckeypath "out" 12 = "out.12".
Proof. by vm_compute. Qed.

Example export_both_copies :
  (ExportVRFKey X pkAndFile held).1 = Ok tt ∧
  files (ExportVRFKey X pkAndFile held).2 !! "out" = Some (serialize copy1) ∧
  files (ExportVRFKey X pkAndFile held).2 !! "out.1" = Some (serialize copy2) ∧
  files (ExportVRFKey X pkAndFile held).2 !! "out.2" = None.
Proof. repeat split; reflexivity. Qed.

(** C1, as stated, fails: the registry of [fresh] has no record for 0x0 and
    the key store's export says so, yet the export command does not fail. *)
Lemma C1_counterexample :
  matching "0x0" (keystore fresh) = [] ∧
  ¬ (∃ e, (ExportVRFKey X pkAndFile fresh).1 = Err e).
Proof.
  split; [reflexivity|].
  intros [e He]. vm_compute in He. discriminate.
Qed.

Lemma C1_witness :
  VRFKeyStore_Export X "0x0" (keystore fresh)
    = (([], Some (Other "NoSuchKeyError")), emptyStore) ∧
  ∃ w1, getKeys X pkAndFile fresh = (Ok [], w1) ∧
        logs w1 = [Infow_entry (X := X) "while retrieving keys with matching public key"
                     [LogPublicKey (X := X) "0x0";
                      LogError (Other "NoSuchKeyError")]] ∧
        ExportVRFKey X pkAndFile fresh = (Ok tt, w1) ∧
        files w1 = files fresh.
Proof.
  split; [reflexivity|].
  destruct (C1_export_tolerates_store_errors X pkAndFile fresh "0x0" []
              (Some (Other "NoSuchKeyError")) emptyStore)
    as (w1 & Hkeys & Hfiles & Hlogs & _ & Hnone); [reflexivity..|].
  exists w1. split; [exact Hkeys|]. split; [exact Hlogs|].
  split; [apply Hnone; reflexivity | exact Hfiles].
Defined.

(** C2, as stated, fails twice over.  With the password given and no target
    file, the command is refused only after the key store was asked for the
    key and drew it from the random source.  With neither password nor target
    file, the error is the missing password, not the refused overwrite. *)
Lemma C2_counterexample :
  let r := CreateAndExportWeakVRFKey X pwFlag fresh in
  (IsSet pwFlag "file" = false ∧
   r.1 = Err (Errorf overwrite_errmsg) ∧
   calls r.2 = [CallCreateWeak (X := X) "hunter2"] ∧
   entropy (keystore r.2) = S (entropy (keystore fresh)) ∧
   ¬ (calls r.2 = calls fresh)) ∧
  (IsSet pkOnly "file" = false ∧
   (CreateAndExportWeakVRFKey X pkOnly fresh).1 ≠ Err (Errorf overwrite_errmsg)).
Proof.
  intros r. split.
  - split; [reflexivity|]. split; [reflexivity|]. split; [reflexivity|].
    split; [reflexivity|].
    change (calls r.2) with [CallCreateWeak (X := X) "hunter2"].
    change (calls fresh) with (@nil (Call X)). discriminate.
  - split; [reflexivity|].
    change ((CreateAndExportWeakVRFKey X pkOnly fresh).1)
      with (@Err unit (Errorf "must specify password file")).
    intros [=].
Qed.

Lemma C2_witness :
  IsSet pwFlag "file" = false ∧
  ∃ w', CreateAndExportWeakVRFKey X pwFlag fresh = (Err (Errorf overwrite_errmsg), w') ∧
        files w' = files fresh ∧
        stdout w' = [overwrite_errmsg +:+ nl] ∧
        calls w' = [CallCreateWeak (X := X) "hunter2"] ∧
        keystore w' = mkState [] 1 true.
Proof.
  split; [reflexivity|].
  destruct (C2_weak_key_refused_after_generation X pwFlag fresh)
    as (e & w' & Hrun & Hfiles & Hwhen); [left; reflexivity|].
  destruct (Hwhen "hunter2" weakKey (mkState [] 1 true) eq_refl eq_refl eq_refl)
    as (-> & Hout & Hcalls & Hks).
  exists w'. split; [exact Hrun|]. split; [exact Hfiles|].
  split; [exact Hout|]. split; [exact Hcalls | exact Hks].
Defined.

Lemma C3_witness :
  ∃ w', ExportVRFKey X pkAndFile held = (Ok tt, w') ∧
        NoDup (exportPaths "out" 2) ∧
        files w' !! "out" = Some (serialize copy1) ∧
        files w' !! "out.1" = Some (serialize copy2).
Proof.
  destruct (C3_export_writes_distinct_paths X pkAndFile held "0x0"
              [serialize copy1; serialize copy2] None twoCopies)
    as (w' & Hrun & Hdistinct & Hsaved & _); [reflexivity..| |].
  { intros i _. apply not_elem_of_empty. }
  exists w'. split; [exact Hrun|]. split; [exact Hdistinct|].
  split; [exact (Hsaved 0 _ eq_refl) | exact (Hsaved 1 _ eq_refl)].
Defined.

(** C4, as stated, fails: the registry has a record for 0x0 and the key
    store reports the duplicate, but the key file is not JSON, so the
    command cannot decode the public key from it: it returns the decoder's
    error, not the duplicate-key error, and prints no remedy. *)
Lemma C4_counterexample :
  let r := ImportVRFKey Setups.colonX pwAndFile Setups.colonWithKeyFile in
  matching "0x0" (mkState [copy1] 1 true) = [copy1] ∧
  VRFKeyStore_Import Setups.colonX (Setups.colonFile copy1) "hunter2"
    (mkState [copy1] 1 true)
  = (Some MatchingVRFKeyError, mkState [copy1] 1 true) ∧
  r.1 = Err (Wrap (Other "json: cannot decode the key file")
               ("while extracting public key from " +:+
                string_of_list_byte (Setups.colonFile copy1))) ∧
  r.1 ≠ Err (Wrap MatchingVRFKeyError "while attempting to import key from CL") ∧
  stdout r.2 =
    ["The database already has an entry for that public key." +:+ nl;
     "could not extract public key from json input" +:+ nl].
Proof.
  intros r. split; [reflexivity|]. split; [reflexivity|].
  assert (r.1 = Err (Wrap (Other "json: cannot decode the key file")
                       ("while extracting public key from " +:+
                        string_of_list_byte (Setups.colonFile copy1)))) as Hr
    by reflexivity.
  split; [exact Hr|]. split; [|reflexivity].
  rewrite Hr. intros [=].
Qed.

Lemma C4_witness :
  matching "0x0" (keystore withKeyFile) = [copy1] ∧
  ∃ w', ImportVRFKey X pwAndFile withKeyFile
        = (Err (Wrap MatchingVRFKeyError "while attempting to import key from CL"), w') ∧
        stdout w' =
          ["The database already has an entry for that public key." +:+ nl;
           remedy_message "0x0" +:+ nl] ∧
        contains (remedy_message "0x0")
          ("delete the old key with the command" +:+ nl +:+ nl +:+
           "`chainlink local delete -pk 0x0`").
Proof.
  split; [reflexivity|].
  destruct (C4_import_duplicate_names_key_and_remedy X pwAndFile withKeyFile
              "hunter2" (serialize copy1) (mkState [copy1] 1 true))
    as (e & w' & Hrun & _ & _ & _ & Hdecoded); [reflexivity..|].
  destruct (Hdecoded "0x0" eq_refl) as (-> & Hout & Hdelete & _).
  exists w'. split; [exact Hrun|]. split; [exact Hout | exact Hdelete].
Defined.

Lemma C5_witness :
  matching "0x0" (keystore fresh) = [] ∧
  ∃ w', DeleteVRFKey X pkOnly fresh = (Err AttemptToDeleteNonExistentKeyFromDB, w') ∧
        stdout w' = ["There is already no entry in the DB for 0x0" +:+ nl].
Proof.
  split; [reflexivity|].
  destruct (C5_delete_absent_key_fails X pkOnly fresh "0x0" emptyStore)
    as (w' & Hrun & Hout & _); [reflexivity..|].
  exists w'. split; [exact Hrun | exact Hout].
Defined.

Lemma C6_witness :
  let w' := (CreateAndExportWeakVRFKey X pwAndFile fresh).2 in
  CreateAndExportWeakVRFKey X pwAndFile fresh = (Ok tt, w') ∧
  registry (keystore w') = registry (keystore fresh) ∧
  calls w' = [CallCreateWeak (X := X) "hunter2"] ∧
  files w' = <["key.json" := serialize weakKey]> (files fresh) ∧
  (∀ p, p ≠ "key.json" -> files w' !! p = files fresh !! p).
Proof.
  intros w'.
  assert (CreateAndExportWeakVRFKey X pwAndFile fresh = (Ok tt, w')) as Hrun
    by reflexivity.
  split; [exact Hrun|].
  destruct (C6_weak_key_only_on_disk X registry pwAndFile fresh w'
              MemStoreFacts.createWeak_not_persisted Hrun)
    as (Hreg & _ & _ & _ & Hothers).
  split; [exact Hreg|]. split; [reflexivity|]. split; [reflexivity | exact Hothers].
Defined.

Lemma C7_witness :
  (CreateVRFKey X pkOnly fresh = (Err (Errorf "must specify password file"), fresh) ∧
   CreateAndExportWeakVRFKey X pkOnly fresh
   = (Err (Errorf "must specify password file"), fresh) ∧
   ImportVRFKey X pkOnly fresh = (Err (Errorf "must specify password file"), fresh)) ∧
  calls (CreateVRFKey X pwAndFile withKeyFile).2 = [CallCreateKey (X := X) "hunter2"] ∧
  files (CreateVRFKey X pwAndFile withKeyFile).2 = files withKeyFile ∧
  calls (CreateAndExportWeakVRFKey X pwAndFile withKeyFile).2
  = [CallCreateWeak (X := X) "hunter2"] ∧
  calls (ImportVRFKey X pwAndFile withKeyFile).2
  = [CallImport (X := X) (serialize copy1) "hunter2"] ∧
  files (ImportVRFKey X pwAndFile withKeyFile).2 = files withKeyFile.
Proof.
  split.
  - apply (proj1 (C7_password_required_and_only_passed_on X pkOnly fresh)).
    reflexivity.
  - destruct (proj2 (C7_password_required_and_only_passed_on X pwAndFile withKeyFile)
                "hunter2" eq_refl eq_refl)
      as ((Hc1 & Hf1 & _) & (Hc2 & _) & Himport).
    destruct (Himport (serialize copy1) eq_refl eq_refl) as (Hc3 & Hf3 & _).
    split; [exact Hc1|]. split; [exact Hf1|]. split; [exact Hc2|].
    split; [exact Hc3 | exact Hf3].
Defined.

Lemma C8_witness :
  (∃ w', CreateVRFKey X pwFlag fresh = (Ok tt, w') ∧
         stdout w' = [created_message "0x0"] ∧
         contains (created_message "0x0")
           ("chainlink local vrf export -f <save_path> -pk 0x0" +:+ nl)) ∧
  (∃ w', CreateVRFKey X pwFlag down
         = (Err (Wrap (Other "PersistenceError") "while creating new account"), w') ∧
         stdout w' = []).
Proof.
  split.
  - destruct (proj1 (C8_create_reports_key_or_wrapped_error X pwFlag fresh "hunter2"
                       (mkState [copy1] 1 true) eq_refl eq_refl) "0x0" eq_refl)
      as (w' & Hrun & Hout & _ & Hexport & _).
    exists w'. split; [exact Hrun|]. split; [exact Hout | exact Hexport].
  - destruct (proj2 (C8_create_reports_key_or_wrapped_error X pwFlag down "hunter2"
                       (mkState [] 1 false) eq_refl eq_refl)
                (Other "PersistenceError") eq_refl)
      as (w' & Hrun & Hout & _).
    exists w'. split; [exact Hrun | exact Hout].
Defined.

Lemma C10_witness :
  ∃ w', ExportVRFKey X pkAndFile heldSecondRefused
        = (Err (Wrap (ErrPermission "out.1")
                  ("could not save " +:+ string_of_list_byte (serialize copy2) +:+
                   " to out.1")), w') ∧
        files w' !! "out" = Some (serialize copy1) ∧
        files w' !! "out.1" = None.
Proof.
  destruct (C10_export_stops_at_failed_write X pkAndFile heldSecondRefused "0x0"
              [serialize copy1; serialize copy2] None twoCopies 1 (serialize copy2))
    as (w' & Hrun & Hbefore & Hafter); [reflexivity..| | |].
  { by apply (bool_decide_unpack _); vm_compute. }
  { intros j Hj. assert (j = 0) as -> by lia.
    by apply (bool_decide_unpack _); vm_compute. }
  exists w'. split; [exact Hrun|].
  split; [exact (Hbefore 0 _ (le_n 1) eq_refl) | exact (Hafter 1 (le_n 1))].
Defined.

End Runs.

(** ** Flags that are missing or unusable *)

Section FlagErrors.
Context (X : Externals).
Implicit Types (w : World X) (c : Context).

Lemma getPublicKey_unset c w :
  IsSet c "publicKey" = false ->
  getPublicKey X c w = (Err (Errorf "must specify public key"), w).
Proof. intros Hc. unfold getPublicKey. by rewrite Hc. Qed.

Lemma getPublicKey_unparsable c w e :
  IsSet c "publicKey" = true ->
  NewPublicKeyFromHex X (String_ c "publicKey") = Err e ->
  getPublicKey X c w = (Err (Wrap e "failed to parse public key"), w).
Proof.
  intros Hc Hpk. unfold getPublicKey. rewrite Hc. simpl.
  unfold wrapf. by rewrite Hpk.
Qed.

(** X1.  Without the public-key flag, export and delete fail with 'must
    specify public key' and leave the world as it was: the key store is not
    consulted, whatever the other flags are. *)
Theorem X1_public_key_required c w :
  IsSet c "publicKey" = false ->
  ExportVRFKey X c w = (Err (Errorf "must specify public key"), w) ∧
  DeleteVRFKey X c w = (Err (Errorf "must specify public key"), w).
Proof.
  intros Hc. unfold ExportVRFKey, DeleteVRFKey, getKeys, bind.
  by rewrite (getPublicKey_unset c w Hc).
Qed.

(** X2.  When the public-key flag does not parse, export and delete return
    the parser's error wrapped with 'failed to parse public key' and leave the
    world as it was. *)
Theorem X2_public_key_must_parse c w e :
  IsSet c "publicKey" = true ->
  NewPublicKeyFromHex X (String_ c "publicKey") = Err e ->
  ExportVRFKey X c w = (Err (Wrap e "failed to parse public key"), w) ∧
  DeleteVRFKey X c w = (Err (Wrap e "failed to parse public key"), w).
Proof.
  intros Hc Hpk. unfold ExportVRFKey, DeleteVRFKey, getKeys, bind.
  by rewrite (getPublicKey_unparsable c w e Hc Hpk).
Qed.

(** X3.  Export without the file flag fails with 'must specify file to export
    to', but only after the key store's export was invoked for the key: the
    call is on record and the key store has moved on, while no file is
    written and nothing is printed. *)
Theorem X3_export_checks_file_after_store c w pk enckeys oerr ks' :
  IsSet c "publicKey" = true ->
  NewPublicKeyFromHex X (String_ c "publicKey") = Ok pk ->
  VRFKeyStore_Export X pk (keystore w) = ((enckeys, oerr), ks') ->
  IsSet c "file" = false ->
  ∃ w', ExportVRFKey X c w = (Err (Errorf "must specify file to export to"), w') ∧
        calls w' = (calls w ++ [CallExport pk])%list ∧
        keystore w' = ks' ∧
        files w' = files w ∧
        stdout w' = stdout w.
Proof.
  intros Hc Hpk Hexp Hf.
  rewrite (ExportVRFKey_run X c w pk enckeys oerr ks' Hc Hpk Hexp).
  rewrite (getKeys_run X c w pk enckeys oerr ks' Hc Hpk Hexp), Hf. simpl.
  eexists. split; [done|]. by destruct oerr.
Qed.

(** X4.  With the password read, import needs a key file it can read: without
    the file flag it fails with 'must specify key file', and with a file flag
    naming no file it fails with the read error wrapped with 'failed to read
    file' and the path.  Either way the world is as it was: the key store is
    not invoked. *)
Theorem X4_import_needs_key_file c w raw :
  IsSet c "password" = true ->
  passwordFromFile X (String_ c "password") (files w) = Ok raw ->
  (IsSet c "file" = false ->
     ImportVRFKey X c w = (Err (Errorf "must specify key file"), w)) ∧
  (IsSet c "file" = true -> files w !! String_ c "file" = None ->
     ImportVRFKey X c w
     = (Err (Wrap (ErrNotExist (String_ c "file"))
               ("failed to read file " +:+ String_ c "file")), w)).
Proof.
  intros Hc Hraw. split.
  - intros Hf. unfold ImportVRFKey, getPasswordAndKeyFile, bind.
    by rewrite (getPassword_read X c w raw Hc Hraw), Hf.
  - intros Hf Hnone. unfold ImportVRFKey, getPasswordAndKeyFile, bind.
    rewrite (getPassword_read X c w raw Hc Hraw), Hf. simpl.
    unfold wrapf, ReadFile. by rewrite Hnone.
Qed.

(** X5.  When the password file cannot be read, create, create-weak and
    import all return the read error wrapped with 'could not read password
    from file' and the path, and leave the world as it was. *)
Theorem X5_password_file_must_be_readable c w e :
  IsSet c "password" = true ->
  passwordFromFile X (String_ c "password") (files w) = Err e ->
  let err := Wrap e ("could not read password from file " +:+ String_ c "password") in
  CreateVRFKey X c w = (Err err, w) ∧
  CreateAndExportWeakVRFKey X c w = (Err err, w) ∧
  ImportVRFKey X c w = (Err err, w).
Proof.
  intros Hc Hraw err.
  unfold CreateVRFKey, CreateAndExportWeakVRFKey, ImportVRFKey,
    getPasswordAndKeyFile, bind.
  by rewrite (getPassword_unreadable X c w e Hc Hraw).
Qed.

End FlagErrors.

(** ** What the commands make of the key store's answers *)

Section Answers.
Context (X : Externals).
Implicit Types (w : World X) (c : Context).

(** X6.  Unless the key store answers an import with MatchingVRFKeyError
    itself, the import command returns the key store's answer untouched --
    no error, or the very error, not wrapped -- and prints nothing. *)
Theorem X6_import_passes_answer_on c w raw keyjson oerr ks' :
  IsSet c "password" = true ->
  passwordFromFile X (String_ c "password") (files w) = Ok raw ->
  IsSet c "file" = true ->
  files w !! String_ c "file" = Some keyjson ->
  VRFKeyStore_Import X keyjson raw (keystore w) = (oerr, ks') ->
  oerr ≠ Some MatchingVRFKeyError ->
  ∃ w', ImportVRFKey X c w
        = (match oerr with None => Ok tt | Some e => Err e end, w') ∧
        stdout w' = stdout w ∧
        keystore w' = ks' ∧
        calls w' = (calls w ++ [CallImport keyjson raw])%list.
Proof.
  intros Hc Hraw Hf Hjson Himp Hother.
  rewrite (ImportVRFKey_run X c w raw keyjson Hc Hraw Hf Hjson), Himp. simpl.
  destruct oerr as [e|]; [|by eexists].
  rewrite decide_False by congruence. by eexists.
Qed.

(** X7.  When the key store reports a duplicate but the public key cannot be
    decoded from the key file, the import command prints that the database
    already has the key and that the public key could not be extracted, and
    returns the decoder's error wrapped with the content of the key file: the
    remedy is not printed and the duplicate-key error is not returned. *)
Theorem X7_import_duplicate_without_public_key c w raw keyjson ks' e :
  IsSet c "password" = true ->
  passwordFromFile X (String_ c "password") (files w) = Ok raw ->
  IsSet c "file" = true ->
  files w !! String_ c "file" = Some keyjson ->
  VRFKeyStore_Import X keyjson raw (keystore w) = (Some MatchingVRFKeyError, ks') ->
  Unmarshal_PublicKey X keyjson = Err e ->
  ∃ w', ImportVRFKey X c w
        = (Err (Wrap e ("while extracting public key from " +:+
                        string_of_list_byte keyjson)), w') ∧
        stdout w' =
          (stdout w ++
           ["The database already has an entry for that public key." +:+ nl;
            "could not extract public key from json input" +:+ nl])%list.
Proof.
  intros Hc Hraw Hf Hjson Himp Hpk.
  rewrite (ImportVRFKey_run X c w raw keyjson Hc Hraw Hf Hjson), Himp. simpl.
  rewrite Hpk. eexists. split; [done|]. simpl. by rewrite <- app_assoc.
Qed.

(** X8.  Unless the key store answers a delete with
    AttemptToDeleteNonExistentKeyFromDB itself, the delete command returns
    the key store's answer untouched and prints nothing. *)
Theorem X8_delete_passes_answer_on c w pk oerr ks' :
  IsSet c "publicKey" = true ->
  NewPublicKeyFromHex X (String_ c "publicKey") = Ok pk ->
  VRFKeyStore_Delete X pk (keystore w) = (oerr, ks') ->
  oerr ≠ Some AttemptToDeleteNonExistentKeyFromDB ->
  ∃ w', DeleteVRFKey X c w
        = (match oerr with None => Ok tt | Some e => Err e end, w') ∧
        stdout w' = stdout w ∧
        keystore w' = ks' ∧
        calls w' = (calls w ++ [CallDelete pk])%list.
Proof.
  intros Hc Hpk Hdel Hother. unfold DeleteVRFKey, bind.
  rewrite (getPublicKey_ok X c w pk Hc Hpk).
  unfold attempt, vrf_Delete. rewrite Hdel.
  destruct oerr as [e|]; simpl; [|by eexists].
  rewrite decide_False by congruence. by eexists.
Qed.

(** Printing the keys only appends their lines to the output. *)
Lemma printKeys_run keys w :
  printKeys X keys w = (Ok tt, printed (keyLines X keys) w).
Proof.
  revert w. induction keys as [|key rest IH]; intros w; simpl.
  - unfold ret, printed, keyLines. simpl. rewrite app_nil_r. by destruct w.
  - unfold bind, Println, Printf. rewrite IH.
    unfold printed, add_stdout, keyLines. simpl. by rewrite <- app_assoc.
Qed.

(** X9.  ListKeys prints the public keys the key store lists, one per line
    and in the key store's order, then logs them once and returns no error;
    when the key store fails, it returns the key store's error as it is and
    neither prints nor logs.  The flags play no part. *)
Theorem X9_list_prints_every_key c w r ks' :
  VRFKeyStore_ListKeys X (keystore w) = (r, ks') ->
  ∃ w', ListKeys X c w
        = (match r with Ok _ => Ok tt | Err e => Err e end, w') ∧
        stdout w' =
          (stdout w ++ match r with Ok keys => keyLines X keys | Err _ => [] end)%list ∧
        logs w' =
          (logs w ++ match r with
                     | Ok keys => [Infow_entry "keys" [LogString "keys"; LogKeys keys]]
                     | Err _ => []
                     end)%list ∧
        keystore w' = ks' ∧
        files w' = files w.
Proof.
  intros Hlist. unfold ListKeys, bind, vrf_ListKeys. rewrite Hlist.
  destruct r as [keys|e].
  - rewrite printKeys_run. unfold Infow, ret. eexists. split; [done|]. done.
  - eexists. split; [done|]. simpl. by rewrite !app_nil_r.
Qed.

End Answers.

(** ** The weak testing key and its file *)

Section WeakKeyFile.
Context (X : Externals).
Implicit Types (w : World X) (c : Context).

(** Either the command fails and the files are as they were, or it succeeds
    and has created the file named by the file flag, where none was. *)
Lemma weak_outcome c w :
  let r := CreateAndExportWeakVRFKey X c w in
  (∃ e, r.1 = Err e ∧ files r.2 = files w) ∨
  (r.1 = Ok tt ∧ IsSet c "file" = true ∧ files w !! String_ c "file" = None ∧
   ∃ key, files r.2 = <[String_ c "file" := Marshal X key]> (files w)).
Proof.
  intros r. subst r.
  destruct (IsSet c "password") eqn:Hc.
  2:{ left. unfold CreateAndExportWeakVRFKey, bind.
      rewrite (getPassword_unset X c w Hc). by eexists. }
  destruct (passwordFromFile X (String_ c "password") (files w)) as [raw|e] eqn:Hraw.
  2:{ left. unfold CreateAndExportWeakVRFKey, bind.
      rewrite (getPassword_unreadable X c w e Hc Hraw). by eexists. }
  rewrite (CreateAndExportWeakVRFKey_run X c w raw Hc Hraw). simpl.
  destruct (VRFKeyStore_CreateWeakInMemoryEncryptedKeyXXXTestingOnly X raw (keystore w))
    as [[key|e] ks]; simpl; [|left; by eexists].
  destruct (IsSet c "file"); simpl; [|left; by eexists].
  destruct (noFileToOverwrite (String_ c "file") w) eqn:Hfree; simpl;
    [|left; by eexists].
  apply noFileToOverwrite_true in Hfree as [Hold _].
  unfold WriteFile. simpl.
  case_decide; simpl; [left; by eexists|].
  right. split; [done|]. split; [done|]. split; [done|]. by exists key.
Qed.

(** X10.  With the password read, the key generated, a file flag naming no
    existing file and the write accepted, the weak-key command prints its
    warning, writes the marshalled key to that file and returns no error. *)
Theorem X10_weak_key_written c w raw key ks' :
  IsSet c "password" = true ->
  passwordFromFile X (String_ c "password") (files w) = Ok raw ->
  VRFKeyStore_CreateWeakInMemoryEncryptedKeyXXXTestingOnly X raw (keystore w)
    = (Ok key, ks') ->
  IsSet c "file" = true ->
  files w !! String_ c "file" = None ->
  String_ c "file" ∉ unwritable w ->
  ∃ w', CreateAndExportWeakVRFKey X c w = (Ok tt, w') ∧
        files w' = <[String_ c "file" := Marshal X key]> (files w) ∧
        stdout w' =
          (stdout w ++ ["Don't use this key for anything sensitive!" +:+ nl])%list ∧
        keystore w' = ks'.
Proof.
  intros Hc Hraw Hgen Hf Hnone Hwritable.
  rewrite (CreateAndExportWeakVRFKey_run X c w raw Hc Hraw), Hgen, Hf. simpl.
  assert (noFileToOverwrite (String_ c "file") w = true) as ->.
  { apply noFileToOverwrite_true. split; [done|].
    intros Hin. apply Hwritable. unfold unwritable. set_solver. }
  unfold WriteFile. simpl. rewrite decide_False by done. by eexists.
Qed.

(** X11.  When everything is in place but the OS refuses to open the key
    file for writing, the outcome depends on what os.Stat said of the path.
    Where os.Stat reported not-exist, the weak-key command prints its
    warning and returns the write error as it is, not wrapped.  Where
    os.Stat itself failed with another error, the command takes the path for
    taken: it prints and returns the overwrite-refused error.  Either way
    the key has been generated and no file is written. *)
Theorem X11_weak_key_write_refused c w raw key ks' :
  IsSet c "password" = true ->
  passwordFromFile X (String_ c "password") (files w) = Ok raw ->
  VRFKeyStore_CreateWeakInMemoryEncryptedKeyXXXTestingOnly X raw (keystore w)
    = (Ok key, ks') ->
  IsSet c "file" = true ->
  files w !! String_ c "file" = None ->
  String_ c "file" ∈ unwritable w ->
  (String_ c "file" ∉ unstatable w ->
     ∃ w', CreateAndExportWeakVRFKey X c w
           = (Err (ErrPermission (String_ c "file")), w') ∧
           files w' = files w ∧
           stdout w' =
             (stdout w ++ ["Don't use this key for anything sensitive!" +:+ nl])%list ∧
           calls w' = (calls w ++ [CallCreateWeak raw])%list) ∧
  (String_ c "file" ∈ unstatable w ->
     ∃ w', CreateAndExportWeakVRFKey X c w = (Err (Errorf overwrite_errmsg), w') ∧
           files w' = files w ∧
           stdout w' = (stdout w ++ [overwrite_errmsg +:+ nl])%list ∧
           calls w' = (calls w ++ [CallCreateWeak raw])%list).
Proof.
  intros Hc Hraw Hgen Hf Hnone Hrefused.
  rewrite (CreateAndExportWeakVRFKey_run X c w raw Hc Hraw), Hgen, Hf. simpl.
  split.
  - intros Hreach.
    assert (noFileToOverwrite (String_ c "file") w = true) as ->
      by (by apply noFileToOverwrite_true).
    unfold WriteFile. simpl. rewrite decide_True by done. by eexists.
  - intros Hbroken.
    assert (noFileToOverwrite (String_ c "file") w = false) as ->.
    { destruct (noFileToOverwrite (String_ c "file") w) eqn:Hfree; [|done].
      apply noFileToOverwrite_true in Hfree as [_ Hreach]. by destruct Hreach. }
    by eexists.
Qed.

(** X12.  The weak-key command never touches a file that exists: whatever the
    flags, the key store and the outcome, every file on disk before the
    command is there afterwards with the same content. *)
Theorem X12_weak_key_keeps_existing_files c w p content :
  files w !! p = Some content ->
  files (CreateAndExportWeakVRFKey X c w).2 !! p = Some content.
Proof.
  intros Hp.
  destruct (weak_outcome c w) as [(e & _ & ->) | (_ & _ & Hnone & key & ->)]; [done|].
  rewrite lookup_insert_ne; [done|]. intros <-. congruence.
Qed.

(** X13.  A key file is written once: after a successful run of the weak-key
    command, every further run with the same file flag -- whatever the other
    flags and whatever the key store does -- fails and leaves the files as
    they are. *)
Theorem X13_weak_key_file_written_once c w w1 c2 :
  CreateAndExportWeakVRFKey X c w = (Ok tt, w1) ->
  IsSet c2 "file" = true ->
  String_ c2 "file" = String_ c "file" ->
  ∃ e w2, CreateAndExportWeakVRFKey X c2 w1 = (Err e, w2) ∧
          files w2 = files w1 ∧
          is_Some (files w2 !! String_ c "file").
Proof.
  intros Hrun Hf2 Hsame.
  assert (is_Some (files w1 !! String_ c "file")) as Hthere.
  { destruct (weak_outcome c w) as [(e & He & _) | (_ & _ & _ & key & Hfiles)];
      rewrite Hrun in *; simpl in *; [discriminate|].
    rewrite Hfiles, lookup_insert_eq. by eexists. }
  destruct (weak_outcome c2 w1) as [(e & He & Hfiles) | (_ & _ & Hnone & _)].
  - destruct (CreateAndExportWeakVRFKey X c2 w1) as [res w2]. simpl in *.
    subst res. exists e, w2. split; [done|]. split; [done|]. by rewrite Hfiles.
  - rewrite Hsame in Hnone. rewrite Hnone in Hthere. by destruct Hthere.
Qed.

End WeakKeyFile.

(** ** What the commands leave alone *)

Ltac split_cmd :=
  unfold bind, wrapf, attempt, gets, ret, fail, Println, Printf, Infow,
    vrf_CreateKey, vrf_CreateWeak, vrf_Import, vrf_Export, vrf_Delete,
    vrf_ListKeys, ReadFile, WriteToDisk, WriteFile;
  repeat (case_match; simplify_eq/=); eauto 10.

Section Frames.
Context (X : Externals).
Implicit Types (w : World X) (c : Context).

Lemma getPassword_world c w : (getPassword X c w).2 = w.
Proof. unfold getPassword. split_cmd. Qed.

Lemma getPublicKey_world c w : (getPublicKey X c w).2 = w.
Proof. unfold getPublicKey. split_cmd. Qed.

Lemma CreateVRFKey_frame c w :
  let w' := (CreateVRFKey X c w).2 in
  files w' = files w ∧ logs w' = logs w ∧
  (calls w' = calls w ∨ ∃ phrase, calls w' = (calls w ++ [CallCreateKey phrase])%list).
Proof. unfold CreateVRFKey, getPassword. split_cmd. Qed.

Lemma CreateAndExportWeakVRFKey_frame c w :
  let w' := (CreateAndExportWeakVRFKey X c w).2 in
  logs w' = logs w ∧
  (calls w' = calls w ∨ ∃ phrase, calls w' = (calls w ++ [CallCreateWeak phrase])%list).
Proof. unfold CreateAndExportWeakVRFKey, getPassword. split_cmd. Qed.

Lemma ImportVRFKey_frame c w :
  let w' := (ImportVRFKey X c w).2 in
  files w' = files w ∧ logs w' = logs w ∧
  (calls w' = calls w ∨
   ∃ keyjson auth, calls w' = (calls w ++ [CallImport keyjson auth])%list).
Proof. unfold ImportVRFKey, getPasswordAndKeyFile, getPassword. split_cmd. Qed.

Lemma DeleteVRFKey_frame c w :
  let w' := (DeleteVRFKey X c w).2 in
  files w' = files w ∧ logs w' = logs w ∧
  (calls w' = calls w ∨ ∃ k, calls w' = (calls w ++ [CallDelete k])%list).
Proof. unfold DeleteVRFKey, getPublicKey. split_cmd. Qed.

Lemma ListKeys_frame c w :
  let w' := (ListKeys X c w).2 in
  files w' = files w ∧ calls w' = (calls w ++ [CallListKeys])%list.
Proof.
  unfold ListKeys, bind, vrf_ListKeys.
  destruct (VRFKeyStore_ListKeys X (keystore w)) as [[keys|e] ks]; [|done].
  by rewrite printKeys_run.
Qed.

(** The export loop changes nothing but files, and no file but the ones at
    the paths of its indices. *)
Lemma writeKeys_frame keypath i enckeys w :
  let w' := (writeKeys X keypath i enckeys w).2 in
  keystore w' = keystore w ∧ stdout w' = stdout w ∧ logs w' = logs w ∧
  calls w' = calls w ∧ unwritable w' = unwritable w ∧
  (∀ p, (∀ j, j < length enckeys -> p ≠ ckeypath keypath (i + j)) ->
        files w' !! p = files w !! p).
Proof.
  revert i w. induction enckeys as [|keyjson rest IH]; intros i w; simpl; [done|].
  unfold bind, wrapf, WriteFile.
  case_decide; simpl; [done|].
  destruct (IH (S i) (set_files (<[ckeypath keypath i:=keyjson]> (files w)) w))
    as (Hks & Hout & Hlogs & Hcalls & Hro & Hfiles).
  repeat (split; [done|]).
  intros p Hp. rewrite Hfiles.
  - simpl. apply lookup_insert_ne. specialize (Hp 0). rewrite Nat.add_0_r in Hp.
    intros <-. apply Hp; [lia | done].
  - intros j Hj. replace (S i + j) with (i + S j) by lia. apply Hp. lia.
Qed.

Lemma getKeys_frame c w :
  let w' := (getKeys X c w).2 in
  files w' = files w ∧ stdout w' = stdout w ∧
  (calls w' = calls w ∨ ∃ k, calls w' = (calls w ++ [CallExport k])%list) ∧
  (logs w' = logs w ∨ ∃ entry, logs w' = (logs w ++ [entry])%list).
Proof. unfold getKeys, getPublicKey. split_cmd. Qed.

(** X14.  Create, import, delete, list and forget never write a file: for
    every input and every outcome the files on disk after the command are
    the files before it. *)
Theorem X14_only_export_and_weak_key_write_files c w :
  files (CreateVRFKey X c w).2 = files w ∧
  files (ImportVRFKey X c w).2 = files w ∧
  files (DeleteVRFKey X c w).2 = files w ∧
  files (ListKeys X c w).2 = files w ∧
  files (Forget X c w).2 = files w.
Proof.
  split; [apply CreateVRFKey_frame|].
  split; [apply ImportVRFKey_frame|].
  split; [apply DeleteVRFKey_frame|].
  split; [apply ListKeys_frame | done].
Qed.

(** X15.  Export prints nothing and, whether it succeeds or stops at a
    failed write, changes no file other than those at the paths it derives
    from the file flag: the base path and the base path with a numeric
    extension. *)
Theorem X15_export_touches_only_its_paths c w :
  let w' := (ExportVRFKey X c w).2 in
  stdout w' = stdout w ∧
  ∀ p, (∀ i, p ≠ ckeypath (String_ c "file") i) -> files w' !! p = files w !! p.
Proof.
  simpl. unfold ExportVRFKey, bind.
  destruct (getKeys_frame c w) as (Hfiles & Hout & _).
  destruct (getKeys X c w) as [[enckeys|e] w1]; simpl in *; [|by rewrite Hfiles, Hout].
  destruct (IsSet c "file"); simpl; [|by rewrite Hfiles, Hout].
  destruct (writeKeys_frame (String_ c "file") 0 enckeys w1)
    as (_ & Hout' & _ & _ & _ & Hfiles').
  split; [by rewrite Hout', Hout|].
  intros p Hp. rewrite Hfiles', Hfiles; [done|]. intros j _. apply Hp.
Qed.

(** X16.  Every command invokes at most one method of the key store, and
    only its own: create only CreateKey, create-weak only the weak in-memory
    creation, import only Import, export only Export, delete only Delete,
    list exactly ListKeys, forget none. *)
Theorem X16_one_key_store_call_per_command c w :
  (calls (CreateVRFKey X c w).2 = calls w ∨
   ∃ phrase, calls (CreateVRFKey X c w).2 = (calls w ++ [CallCreateKey phrase])%list) ∧
  (calls (CreateAndExportWeakVRFKey X c w).2 = calls w ∨
   ∃ phrase, calls (CreateAndExportWeakVRFKey X c w).2
             = (calls w ++ [CallCreateWeak phrase])%list) ∧
  (calls (ImportVRFKey X c w).2 = calls w ∨
   ∃ keyjson auth, calls (ImportVRFKey X c w).2
                   = (calls w ++ [CallImport keyjson auth])%list) ∧
  (calls (ExportVRFKey X c w).2 = calls w ∨
   ∃ k, calls (ExportVRFKey X c w).2 = (calls w ++ [CallExport k])%list) ∧
  (calls (DeleteVRFKey X c w).2 = calls w ∨
   ∃ k, calls (DeleteVRFKey X c w).2 = (calls w ++ [CallDelete k])%list) ∧
  calls (ListKeys X c w).2 = (calls w ++ [CallListKeys])%list ∧
  calls (Forget X c w).2 = calls w.
Proof.
  split; [apply CreateVRFKey_frame|].
  split; [apply CreateAndExportWeakVRFKey_frame|].
  split; [apply ImportVRFKey_frame|].
  split.
  { unfold ExportVRFKey, bind.
    destruct (getKeys_frame c w) as (_ & _ & Hcalls & _).
    destruct (getKeys X c w) as [[enckeys|e] w1]; simpl in *; [|done].
    destruct (IsSet c "file"); simpl; [|done].
    destruct (writeKeys_frame (String_ c "file") 0 enckeys w1)
      as (_ & _ & _ & Hcalls' & _).
    by rewrite Hcalls'. }
  split; [apply DeleteVRFKey_frame|].
  split; [apply ListKeys_frame | done].
Qed.

(** X17.  Create, create-weak, import, delete and forget never log; export
    logs at most one entry, and that entry carries the public key parsed from
    the publicKey flag and the error the key store's export returned for
    it. *)
Theorem X17_only_export_and_list_log c w :
  logs (CreateVRFKey X c w).2 = logs w ∧
  logs (CreateAndExportWeakVRFKey X c w).2 = logs w ∧
  logs (ImportVRFKey X c w).2 = logs w ∧
  logs (DeleteVRFKey X c w).2 = logs w ∧
  logs (Forget X c w).2 = logs w ∧
  (logs (ExportVRFKey X c w).2 = logs w ∨
   ∃ pk e,
     IsSet c "publicKey" = true ∧
     NewPublicKeyFromHex X (String_ c "publicKey") = Ok pk ∧
     (VRFKeyStore_Export X pk (keystore w)).1.2 = Some e ∧
     logs (ExportVRFKey X c w).2
     = (logs w ++ [Infow_entry "while retrieving keys with matching public key"
                     [LogPublicKey pk; LogError e]])%list).
Proof.
  split; [apply CreateVRFKey_frame|].
  split; [apply CreateAndExportWeakVRFKey_frame|].
  split; [apply ImportVRFKey_frame|].
  split; [apply DeleteVRFKey_frame|].
  split; [done|].
  destruct (IsSet c "publicKey") eqn:Hc.
  2:{ left. unfold ExportVRFKey, getKeys, bind.
      by rewrite (getPublicKey_unset X c w Hc). }
  destruct (NewPublicKeyFromHex X (String_ c "publicKey")) as [pk|e0] eqn:Hpk.
  2:{ left. unfold ExportVRFKey, getKeys, bind.
      by rewrite (getPublicKey_unparsable X c w e0 Hc Hpk). }
  destruct (VRFKeyStore_Export X pk (keystore w)) as [[enckeys oerr] ks'] eqn:Hexp.
  assert (logs (ExportVRFKey X c w).2 = logs (getKeys X c w).2) as ->.
  { rewrite (ExportVRFKey_run X c w pk enckeys oerr ks' Hc Hpk Hexp). simpl.
    destruct (IsSet c "file"); [|done]. apply writeKeys_frame. }
  rewrite (getKeys_run X c w pk enckeys oerr ks' Hc Hpk Hexp). simpl.
  destruct oerr as [e|]; [|by left].
  right. exists pk, e. by rewrite Hexp.
Qed.

End Frames.

(** ** Out to a file and back *)

Section RoundTrips.
Context (X : Externals).
Implicit Types (w : World X) (c : Context).

(** X18.  What export saves is what import reads: after an export whose
    writes are all accepted, an import whose file flag names the path of the
    copy at index i hands the key store exactly the bytes the key store's
    export returned at index i, with the password read from the password
    file. *)
Theorem X18_exported_copy_is_imported_unchanged
    c w pk enckeys oerr ks' i keyjson c2 raw :
  IsSet c "publicKey" = true ->
  NewPublicKeyFromHex X (String_ c "publicKey") = Ok pk ->
  VRFKeyStore_Export X pk (keystore w) = ((enckeys, oerr), ks') ->
  IsSet c "file" = true ->
  (∀ j, j < length enckeys -> ckeypath (String_ c "file") j ∉ unwritable w) ->
  enckeys !! i = Some keyjson ->
  IsSet c2 "file" = true ->
  String_ c2 "file" = ckeypath (String_ c "file") i ->
  IsSet c2 "password" = true ->
  passwordFromFile X (String_ c2 "password") (files (ExportVRFKey X c w).2) = Ok raw ->
  (ExportVRFKey X c w).1 = Ok tt ∧
  calls (ImportVRFKey X c2 (ExportVRFKey X c w).2).2
  = (calls w ++ [CallExport pk; CallImport keyjson raw])%list.
Proof.
  intros Hc Hpk Hexp Hf Hw Hi Hf2 Hpath Hc2.
  rewrite (ExportVRFKey_run X c w pk enckeys oerr ks' Hc Hpk Hexp).
  rewrite (getKeys_run X c w pk enckeys oerr ks' Hc Hpk Hexp). simpl. rewrite Hf.
  rewrite writeKeys_ok by (by destruct oerr). simpl. intros Hraw.
  split; [done|].
  erewrite ImportVRFKey_run; [| exact Hc2 | exact Hraw | exact Hf2 |].
  2:{ rewrite Hpath. simpl. apply (savedFiles_lookup _ 0). exact Hi. }
  simpl.
  destruct (VRFKeyStore_Import X keyjson raw _) as [[err|] ks2]; simpl.
  - destruct (decide (err = MatchingVRFKeyError)); simpl.
    + destruct (Unmarshal_PublicKey X keyjson); simpl;
        destruct oerr; simpl; by rewrite <- app_assoc.
    + destruct oerr; simpl; by rewrite <- app_assoc.
  - destruct oerr; simpl; by rewrite <- app_assoc.
Qed.

(** A successful weak-key run has generated a key and saved it. *)
Lemma weak_success_inv c w w1 :
  CreateAndExportWeakVRFKey X c w = (Ok tt, w1) ->
  ∃ raw key ks',
    VRFKeyStore_CreateWeakInMemoryEncryptedKeyXXXTestingOnly X raw (keystore w)
      = (Ok key, ks') ∧
    files w1 = <[String_ c "file" := Marshal X key]> (files w) ∧
    calls w1 = (calls w ++ [CallCreateWeak raw])%list.
Proof.
  intros Hrun.
  destruct (IsSet c "password") eqn:Hc.
  2:{ unfold CreateAndExportWeakVRFKey, bind in Hrun.
      by rewrite (getPassword_unset X c w Hc) in Hrun. }
  destruct (passwordFromFile X (String_ c "password") (files w)) as [raw|e] eqn:Hraw.
  2:{ unfold CreateAndExportWeakVRFKey, bind in Hrun.
      by rewrite (getPassword_unreadable X c w e Hc Hraw) in Hrun. }
  rewrite (CreateAndExportWeakVRFKey_run X c w raw Hc Hraw) in Hrun.
  destruct (VRFKeyStore_CreateWeakInMemoryEncryptedKeyXXXTestingOnly X raw (keystore w))
    as [[key|e] ks'] eqn:Hgen; simpl in *; [|done].
  destruct (negb (IsSet c "file")
            || negb (noFileToOverwrite (String_ c "file") w)); [done|].
  unfold WriteFile in Hrun. simpl in Hrun.
  case_decide; [done|].
  injection Hrun as <-. by exists raw, key, ks'.
Qed.

(** X19.  What the weak-key command saves is what import reads: after a
    successful weak-key run, an import with the same file flag hands the key
    store exactly the marshalled key that the key store had generated. *)
Theorem X19_weak_key_file_is_imported_unchanged c w w1 c2 raw2 :
  CreateAndExportWeakVRFKey X c w = (Ok tt, w1) ->
  IsSet c2 "file" = true ->
  String_ c2 "file" = String_ c "file" ->
  IsSet c2 "password" = true ->
  passwordFromFile X (String_ c2 "password") (files w1) = Ok raw2 ->
  ∃ raw key ks',
    VRFKeyStore_CreateWeakInMemoryEncryptedKeyXXXTestingOnly X raw (keystore w)
      = (Ok key, ks') ∧
    calls (ImportVRFKey X c2 w1).2
    = (calls w ++ [CallCreateWeak raw; CallImport (Marshal X key) raw2])%list.
Proof.
  intros Hrun Hf2 Hpath Hc2 Hraw2.
  destruct (weak_success_inv c w w1 Hrun) as (raw & key & ks' & Hgen & Hfiles & Hcalls).
  exists raw, key, ks'. split; [exact Hgen|].
  assert (files w1 !! String_ c2 "file" = Some (Marshal X key)) as Hjson.
  { rewrite Hpath, Hfiles. apply lookup_insert_eq. }
  rewrite (ImportVRFKey_run X c2 w1 raw2 (Marshal X key) Hc2 Hraw2 Hf2 Hjson) in *.
  simpl in *.
  destruct (VRFKeyStore_Import X (Marshal X key) raw2 (keystore w1)) as [[err|] ks2];
    simpl in *.
  - destruct (decide (err = MatchingVRFKeyError)); simpl.
    + destruct (Unmarshal_PublicKey X (Marshal X key)); simpl;
        by rewrite Hcalls, <- app_assoc.
    + by rewrite Hcalls, <- app_assoc.
  - by rewrite Hcalls, <- app_assoc.
Qed.

End RoundTrips.

(** ** The further properties on concrete runs *)

Module MoreRuns.
Import MemStore Scenario Setups.

Lemma X1_witness :
  ExportVRFKey X pwFlag fresh = (Err (Errorf "must specify public key"), fresh) ∧
  DeleteVRFKey X pwFlag fresh = (Err (Errorf "must specify public key"), fresh).
Proof. apply (X1_public_key_required X pwFlag fresh). reflexivity. Defined.

Lemma X2_witness :
  let e := Wrap (Other "hex string without 0x prefix") "failed to parse public key" in
  ExportVRFKey X badKey fresh = (Err e, fresh) ∧
  DeleteVRFKey X badKey fresh = (Err e, fresh).
Proof.
  apply (X2_public_key_must_parse X badKey fresh
           (Other "hex string without 0x prefix")); reflexivity.
Defined.

Lemma X3_witness :
  ∃ w', ExportVRFKey X pkOnly held = (Err (Errorf "must specify file to export to"), w') ∧
        calls w' = [CallExport (X := X) "0x0"] ∧
        keystore w' = twoCopies ∧
        files w' = files held ∧
        stdout w' = [].
Proof.
  apply (X3_export_checks_file_after_store X pkOnly held "0x0"
           [serialize copy1; serialize copy2] None twoCopies); reflexivity.
Defined.

Lemma X4_witness :
  ImportVRFKey X pwFlag fresh = (Err (Errorf "must specify key file"), fresh) ∧
  ImportVRFKey X pwAndFile fresh
  = (Err (Wrap (ErrNotExist "key.json") "failed to read file key.json"), fresh).
Proof.
  split.
  - apply (proj1 (X4_import_needs_key_file X pwFlag fresh "hunter2" eq_refl eq_refl)).
    reflexivity.
  - apply (proj2 (X4_import_needs_key_file X pwAndFile fresh "hunter2" eq_refl eq_refl));
      reflexivity.
Defined.

Lemma X5_witness :
  let err := Wrap (ErrNotExist "nope.txt") "could not read password from file nope.txt" in
  CreateVRFKey X noSuchPassword fresh = (Err err, fresh) ∧
  CreateAndExportWeakVRFKey X noSuchPassword fresh = (Err err, fresh) ∧
  ImportVRFKey X noSuchPassword fresh = (Err err, fresh).
Proof.
  apply (X5_password_file_must_be_readable X noSuchPassword fresh
           (ErrNotExist "nope.txt")); reflexivity.
Defined.

Lemma X6_witness :
  (∃ w', ImportVRFKey X pwAndFile importable = (Ok tt, w') ∧
         stdout w' = [] ∧
         keystore w' = mkState [copy1] 1 true ∧
         calls w' = [CallImport (X := X) (serialize copy1) "hunter2"]) ∧
  (∃ w', ImportVRFKey X pwAndFile wrongPassword
         = (Err (Other "WrongPasswordError"), w') ∧
         stdout w' = [] ∧
         keystore w' = mkState [] 1 true ∧
         calls w' = [CallImport (X := X) (serialize copy2) "hunter2"]).
Proof.
  split.
  - apply (X6_import_passes_answer_on X pwAndFile importable "hunter2"
             (serialize copy1) None (mkState [copy1] 1 true)); [reflexivity..|].
    discriminate.
  - apply (X6_import_passes_answer_on X pwAndFile wrongPassword "hunter2"
             (serialize copy2) (Some (Other "WrongPasswordError")) (mkState [] 1 true));
      [reflexivity..|].
    discriminate.
Defined.

Lemma X7_witness :
  ∃ w', ImportVRFKey colonX pwAndFile colonWithKeyFile
        = (Err (Wrap (Other "json: cannot decode the key file")
                  ("while extracting public key from " +:+
                   string_of_list_byte (colonFile copy1))), w') ∧
        stdout w' =
          ["The database already has an entry for that public key." +:+ nl;
           "could not extract public key from json input" +:+ nl].
Proof.
  apply (X7_import_duplicate_without_public_key colonX pwAndFile colonWithKeyFile
           "hunter2" (colonFile copy1) (mkState [copy1] 1 true)); reflexivity.
Defined.

Lemma X8_witness :
  ∃ w', DeleteVRFKey X pkOnly held = (Ok tt, w') ∧
        stdout w' = [] ∧
        keystore w' = mkState [] 1 true ∧
        calls w' = [CallDelete (X := X) "0x0"].
Proof.
  apply (X8_delete_passes_answer_on X pkOnly held "0x0" None (mkState [] 1 true));
    [reflexivity..|].
  discriminate.
Defined.

Lemma X9_witness :
  ∃ w', ListKeys X pkOnly held = (Ok tt, w') ∧
        stdout w' = ["0x0" +:+ nl] ∧
        logs w' = [Infow_entry (X := X) "keys"
                     [LogString "keys"; LogKeys (X := X) ["0x0"]]] ∧
        keystore w' = twoCopies ∧
        files w' = files held.
Proof.
  apply (X9_list_prints_every_key X pkOnly held (Ok ["0x0"]) twoCopies). reflexivity.
Defined.

Lemma X10_witness :
  ∃ w', CreateAndExportWeakVRFKey X pwAndFile fresh = (Ok tt, w') ∧
        files w' = <["key.json" := serialize weakKey]> (files fresh) ∧
        stdout w' = ["Don't use this key for anything sensitive!" +:+ nl] ∧
        keystore w' = mkState [] 1 true.
Proof.
  apply (X10_weak_key_written X pwAndFile fresh "hunter2" weakKey (mkState [] 1 true));
    [reflexivity..|].
  apply not_elem_of_empty.
Defined.

Lemma X11_witness :
  (∃ w', CreateAndExportWeakVRFKey X pwAndFile keyFileRefused
         = (Err (ErrPermission "key.json"), w') ∧
         files w' = files keyFileRefused ∧
         stdout w' = ["Don't use this key for anything sensitive!" +:+ nl] ∧
         calls w' = [CallCreateWeak (X := X) "hunter2"]) ∧
  (∃ w', CreateAndExportWeakVRFKey X pwAndNested keyFileUnreachable
         = (Err (Errorf overwrite_errmsg), w') ∧
         files w' = files keyFileUnreachable ∧
         stdout w' = [overwrite_errmsg +:+ nl] ∧
         calls w' = [CallCreateWeak (X := X) "hunter2"]).
Proof.
  split.
  - apply (proj1 (X11_weak_key_write_refused X pwAndFile keyFileRefused "hunter2"
                    weakKey (mkState [] 1 true) eq_refl eq_refl eq_refl eq_refl eq_refl
                    ltac:(by apply (bool_decide_unpack _); vm_compute))).
    by apply (bool_decide_unpack _); vm_compute.
  - apply (proj2 (X11_weak_key_write_refused X pwAndNested keyFileUnreachable "hunter2"
                    weakKey (mkState [] 1 true) eq_refl eq_refl eq_refl eq_refl eq_refl
                    ltac:(by apply (bool_decide_unpack _); vm_compute))).
    by apply (bool_decide_unpack _); vm_compute.
Defined.

Lemma X12_witness :
  files withKeyFile !! "key.json" = Some (serialize copy1) ∧
  files (CreateAndExportWeakVRFKey X pwAndFile withKeyFile).2 !! "key.json"
  = Some (serialize copy1).
Proof.
  split; [reflexivity|].
  apply (X12_weak_key_keeps_existing_files X pwAndFile withKeyFile). reflexivity.
Defined.

Lemma X13_witness :
  let w1 := (CreateAndExportWeakVRFKey X pwAndFile fresh).2 in
  CreateAndExportWeakVRFKey X pwAndFile fresh = (Ok tt, w1) ∧
  ∃ e w2, CreateAndExportWeakVRFKey X pwAndFile w1 = (Err e, w2) ∧
          files w2 = files w1 ∧
          is_Some (files w2 !! "key.json").
Proof.
  intros w1.
  assert (CreateAndExportWeakVRFKey X pwAndFile fresh = (Ok tt, w1)) as Hrun
    by reflexivity.
  split; [exact Hrun|].
  apply (X13_weak_key_file_written_once X pwAndFile fresh w1 pwAndFile Hrun);
    reflexivity.
Defined.

Lemma X15_witness :
  let w' := (ExportVRFKey X pkAndFile held).2 in
  stdout w' = stdout held ∧ files w' !! "pw.txt" = files held !! "pw.txt".
Proof.
  destruct (X15_export_touches_only_its_paths X pkAndFile held) as (Hout & Hfiles).
  split; [exact Hout|]. apply Hfiles.
  intros i. change (String_ pkAndFile "file") with "out".
  unfold ckeypath. case_decide; [cbv [String.append]|]; discriminate.
Defined.

Lemma X18_witness :
  (ExportVRFKey X pkAndFile held).1 = Ok tt ∧
  calls (ImportVRFKey X pwAndSecond (ExportVRFKey X pkAndFile held).2).2
  = [CallExport (X := X) "0x0"; CallImport (X := X) (serialize copy2) "hunter2"].
Proof.
  apply (X18_exported_copy_is_imported_unchanged X pkAndFile held "0x0"
           [serialize copy1; serialize copy2] None twoCopies 1 (serialize copy2)
           pwAndSecond "hunter2"); try reflexivity.
  intros j _. apply not_elem_of_empty.
Defined.

Lemma X19_witness :
  let w1 := (CreateAndExportWeakVRFKey X pwAndFile fresh).2 in
  ∃ raw key ks',
    VRFKeyStore_CreateWeakInMemoryEncryptedKeyXXXTestingOnly X raw (keystore fresh)
      = (Ok key, ks') ∧
    calls (ImportVRFKey X pwAndFile w1).2
    = [CallCreateWeak (X := X) raw; CallImport (X := X) (Marshal X key) "hunter2"].
Proof.
  intros w1.
  apply (X19_weak_key_file_is_imported_unchanged X pwAndFile fresh w1 pwAndFile
           "hunter2"); reflexivity.
Defined.

End MoreRuns.
